(** * Button token extraction

    A shallow embedding of [scripts/extract-button-tokens.py]: the
    recursive search [find_components] over a parsed Figma export, the
    driver [extract_button_tokens] and the [__main__] block, together
    with the properties the specification states about them.

    Conventions.
    - A parsed JSON document is a value of [json]; a Python [dict] is an
      association list in insertion order (the order [json.dump] writes).
    - A Python [str] is a [string] holding the UTF-8 encoding of the text.
      Substring tests, concatenation and lexicographic order agree with
      Python's on that encoding.
    - A Python exception is a value of [exn]; code that can raise returns
      [exc A].
    - The interpreter's recursion limit is not modelled: [find_components]
      is given as much depth as the document needs. *)

From Stdlib Require Import String Ascii List ZArith Bool Arith Lia DecimalString.
From Stdlib Require Import Permutation.
Import ListNotations.

Set Warnings "-register-all".

Local Open Scope string_scope.
Local Open Scope list_scope.

Infix "+++" := String.append (right associativity, at level 60).

(** ** JSON values as [json.load] returns them *)

(** A [float] is identified with the text [float.__repr__] gives for it
    ("1.5", "1e+22", "nan", "inf", "-inf"); no arithmetic is done on
    numbers anywhere in the script. *)
Inductive json : Type :=
| JNull
| JBool (b : bool)
| JInt (z : Z)
| JFloat (repr : string)
| JStr (s : string)
| JArr (items : list json)
| JObj (fields : list (string * json)).

Definition dict : Type := list (string * json).

(** ** Python exceptions *)

Inductive exn : Type :=
| Exception (class message : string).

Definition exn_message (e : exn) : string :=
  match e with Exception _ m => m end.

Inductive exc (A : Type) : Type :=
| Ok (a : A)
| Raise (e : exn).
Arguments Ok {A} a.
Arguments Raise {A} e.

Definition exc_bind {A B} (c : exc A) (k : A -> exc B) : exc B :=
  match c with
  | Ok a => k a
  | Raise e => Raise e
  end.

Notation "x <- c ;; k" := (exc_bind c (fun x => k))
  (at level 61, c at next level, right associativity).

(** [for x in items: s = body(x, s)], stopping at the first exception. *)
Fixpoint for_each {A S : Type} (items : list A) (body : A -> S -> exc S) (s : S)
  : exc S :=
  match items with
  | [] => Ok s
  | x :: rest => s' <- body x s ;; for_each rest body s'
  end.

(** ** Dictionaries *)

(** [key in d] and [d[key]] *)
Fixpoint dict_get (key : string) (d : dict) : option json :=
  match d with
  | [] => None
  | (k, v) :: d' => if String.eqb k key then Some v else dict_get key d'
  end.

Definition has_key (key : string) (d : dict) : bool :=
  match dict_get key d with Some _ => true | None => false end.

(** [d.get(key, default)]; [d.get(key)] is [dict_get_or key d JNull]. *)
Definition dict_get_or (key : string) (d : dict) (default : json) : json :=
  match dict_get key d with Some v => v | None => default end.

(** [d[key] = v]: an existing key keeps its place, a new one goes last. *)
Fixpoint dict_set (key : string) (v : json) (d : dict) : dict :=
  match d with
  | [] => [(key, v)]
  | (k, w) :: d' =>
      if String.eqb k key then (k, v) :: d' else (k, w) :: dict_set key v d'
  end.

(** ** Strings *)

(** [needle in s] for two [str]. *)
Fixpoint is_substring (needle s : string) : bool :=
  String.prefix needle s
  || match s with
     | EmptyString => false
     | String _ s' => is_substring needle s'
     end.

(** A byte [10xxxxxx] continues the character begun before it. *)
Definition is_continuation (c : ascii) : bool :=
  let n := nat_of_ascii c in Nat.leb 128 n && Nat.ltb n 192.

Definition starts_with_continuation (s : string) : bool :=
  match s with
  | EmptyString => false
  | String c _ => is_continuation c
  end.

(** The characters of a [str], as iterating over it yields them. *)
Fixpoint py_chars (s : string) : list string :=
  match s with
  | EmptyString => []
  | String c s' =>
      match py_chars s' with
      | x :: xs =>
          if starts_with_continuation x then String c x :: xs
          else String c EmptyString :: x :: xs
      | [] => [String c EmptyString]
      end
  end.

Definition nat_str (n : nat) : string :=
  NilZero.string_of_uint (Nat.to_uint n).

Definition int_str (z : Z) : string :=
  NilZero.string_of_int (Z.to_int z).

Definition nl : string := String (ascii_of_nat 10) EmptyString.

(** ** Python operators on JSON values *)

Definition py_type_name (v : json) : string :=
  match v with
  | JNull => "NoneType"
  | JBool _ => "bool"
  | JInt _ => "int"
  | JFloat _ => "float"
  | JStr _ => "str"
  | JArr _ => "list"
  | JObj _ => "dict"
  end.

(** [v == s] for a [str] literal [s]. *)
Definition py_eq_str (v : json) (s : string) : bool :=
  match v with
  | JStr t => String.eqb t s
  | _ => false
  end.

(** [needle in container] for a [str] literal [needle]: substring of a
    [str], element of a [list], key of a [dict], [TypeError] otherwise. *)
Definition py_in (needle : string) (container : json) : exc bool :=
  match container with
  | JStr s => Ok (is_substring needle s)
  | JArr items => Ok (existsb (fun x => py_eq_str x needle) items)
  | JObj fields => Ok (has_key needle fields)
  | _ => Raise (Exception "TypeError"
                  ("argument of type '" +++ py_type_name container
                   +++ "' is not iterable"))
  end.

(** The sequence [for child in v] runs over. *)
Definition py_iter (v : json) : exc (list json) :=
  match v with
  | JArr items => Ok items
  | JStr s => Ok (map JStr (py_chars s))
  | JObj fields => Ok (map (fun kv => JStr (fst kv)) fields)
  | _ => Raise (Exception "TypeError"
                  ("'" +++ py_type_name v +++ "' object is not iterable"))
  end.

(** ** The record built for a match *)

(** The dict literal [{'name': .., 'id': .., 'path': .., 'properties': ..}]. *)
Record component : Type := Component {
  c_name : json;
  c_id : json;
  c_path : string;
  c_properties : dict
}.

(** [if src in node: properties[dst] = node[src]] *)
Definition copy_if_present (src dst : string) (node properties : dict) : dict :=
  match dict_get src node with
  | Some v => dict_set dst v properties
  | None => properties
  end.

Definition padding_of (node : dict) : json :=
  JObj [("left", dict_get_or "paddingLeft" node JNull);
        ("right", dict_get_or "paddingRight" node JNull);
        ("top", dict_get_or "paddingTop" node JNull);
        ("bottom", dict_get_or "paddingBottom" node JNull)].

Definition extract_properties (node : dict) : dict :=
  let properties := [] in
  let properties := copy_if_present "fills" "fills" node properties in
  let properties := copy_if_present "strokes" "strokes" node properties in
  let properties := copy_if_present "effects" "effects" node properties in
  let properties := copy_if_present "cornerRadius" "cornerRadius" node properties in
  let properties :=
    if has_key "paddingLeft" node
    then dict_set "padding" (padding_of node) properties
    else properties in
  let properties := copy_if_present "itemSpacing" "itemSpacing" node properties in
  let properties := copy_if_present "layoutMode" "layoutMode" node properties in
  let properties := copy_if_present "characters" "text" node properties in
  let properties := copy_if_present "style" "textStyle" node properties in
  properties.

Definition component_info (node : dict) (path : string) : component :=
  {| c_name := dict_get_or "name" node JNull;
     c_id := dict_get_or "id" node JNull;
     c_path := path;
     c_properties := extract_properties node |}.

(** The test of line 17:
    [node.get('type') == 'COMPONENT' and 'Button' in node.get('name', '')]. *)
Definition is_button_component (node : dict) : exc bool :=
  if py_eq_str (dict_get_or "type" node JNull) "COMPONENT"
  then py_in "Button" (dict_get_or "name" node (JStr ""))
  else Ok false.

(** Nesting depth of a value; the recursion of [find_components] never
    goes deeper than this. *)
Fixpoint json_height (v : json) : nat :=
  match v with
  | JArr items => S (fold_right (fun x m => Nat.max (json_height x) m) 0 items)
  | JObj fields =>
      S (fold_right (fun kv m => Nat.max (json_height (snd kv)) m) 0 fields)
  | _ => 0
  end.

(** ** JSON text as [json.dump(.., indent=2)] writes it *)

Definition float_json (repr : string) : string :=
  if String.eqb repr "nan" then "NaN"
  else if String.eqb repr "inf" then "Infinity"
  else if String.eqb repr "-inf" then "-Infinity"
  else repr.

Fixpoint spaces (n : nat) : string :=
  match n with
  | O => ""
  | S n' => " " +++ spaces n'
  end.

Definition newline_indent (level : nat) : string :=
  nl +++ spaces (2 * level).

(** ** The world the script runs in *)

(** [input_file] is the content of [.figma/cache/file-full.json] and
    [output_file] that of [.figma/cache/button-components.json], [None]
    when the file does not exist; [console] holds the text of the [print]
    calls so far, oldest first. *)
Record world : Type := World {
  input_file : option string;
  output_file : option string;
  console : list string
}.

(** A statement sequence: it may raise, and it leaves a world behind
    either way. *)
Definition script (A : Type) : Type := world -> exc A * world.

Definition script_ret {A} (a : A) : script A := fun w => (Ok a, w).

Definition script_bind {A B} (c : script A) (k : A -> script B) : script B :=
  fun w =>
    match c w with
    | (Ok a, w') => k a w'
    | (Raise e, w') => (Raise e, w')
    end.

Notation "x <~ c ;; k" := (script_bind c (fun x => k))
  (at level 61, c at next level, right associativity).
Notation "c ;;; k" := (script_bind c (fun _ => k))
  (at level 61, right associativity).

Definition lift {A} (c : exc A) : script A := fun w => (c, w).

Definition print (line : string) : script unit :=
  fun w => (Ok tt, {| input_file := input_file w;
                      output_file := output_file w;
                      console := console w ++ [line] |}).

(** [with open(output_file, 'w') as f: f.write(text)] *)
Definition write_output (text : string) : script unit :=
  fun w => (Ok tt, {| input_file := input_file w;
                      output_file := Some text;
                      console := console w |}).

Fixpoint print_all (lines : list string) : script unit :=
  match lines with
  | [] => script_ret tt
  | l :: rest => print l ;;; print_all rest
  end.

(** [sorted] on a list of [str]. *)
Fixpoint insert_sorted (s : string) (l : list string) : list string :=
  match l with
  | [] => [s]
  | x :: rest => if String.leb s x then s :: l else x :: insert_sorted s rest
  end.

Definition sorted (l : list string) : list string :=
  fold_right insert_sorted [] l.

(** [data.get(key, default)] on whatever [json.load] returned. *)
Definition py_get_method (v : json) (key : string) (default : json) : exc json :=
  match v with
  | JObj d => Ok (dict_get_or key d default)
  | _ => Raise (Exception "AttributeError"
                  ("'" +++ py_type_name v +++ "' object has no attribute 'get'"))
  end.

(** ** The specification's vocabulary *)

(** [needle] occurs in [s] as a substring. *)
Definition contains (needle s : string) : Prop :=
  exists before after, s = before +++ needle +++ after.

(** The matching rule: type ["COMPONENT"] and a name, taken as empty when
    missing, that contains ["Button"]. *)
Definition button_component (d : dict) : Prop :=
  dict_get "type" d = Some (JStr "COMPONENT")
  /\ exists name, dict_get_or "name" d (JStr "") = JStr name
                  /\ contains "Button" name.

Definition qualifies (node : json) : Prop :=
  exists d, node = JObj d /\ button_component d.

(** The rule as a test. *)
Definition qualifiesb (d : dict) : bool :=
  match dict_get "type" d with
  | Some (JStr t) => String.eqb t "COMPONENT"
  | _ => false
  end
  && match dict_get_or "name" d (JStr "") with
     | JStr name => is_substring "Button" name
     | _ => false
     end.

(** The data model gives [name] the type string: it is a [str] when it is
    there at all. *)
Definition name_typed (d : dict) : Prop :=
  match dict_get "name" d with
  | None | Some (JStr _) => True
  | Some _ => False
  end.

Definition node_name_typed (node : json) : Prop :=
  match node with
  | JObj d => name_typed d
  | _ => True
  end.

Definition is_dict (node : json) : bool :=
  match node with
  | JObj _ => true
  | _ => false
  end.

(** A document the walk can cover: every object it reaches has a typed
    name and, when it has a [children] field, one that can be iterated
    over.  Values under other fields and the elements of [children]
    themselves are arbitrary JSON. *)
Inductive DocumentTree : json -> Prop :=
| tree_other node :
    is_dict node = false -> DocumentTree node
| tree_leaf d :
    name_typed d -> dict_get "children" d = None -> DocumentTree (JObj d)
| tree_parent d children items :
    name_typed d ->
    dict_get "children" d = Some children ->
    py_iter children = Ok items ->
    Forall DocumentTree items ->
    DocumentTree (JObj d).

(** The child nodes of an object: the elements of its [children] array. *)
Definition children_of (d : dict) : list json :=
  match dict_get "children" d with
  | Some (JArr items) => items
  | _ => []
  end.

(** The objects of a tree in pre-order, children left to right, each with
    the list of its ancestors, outermost first.  The inner loop looks the
    [children] field up; [walk_unfold] gives the equation it obeys. *)
Fixpoint walk (ancestors : list dict) (node : json) : list (list dict * dict) :=
  match node with
  | JObj d =>
      (ancestors, d)
      :: (fix in_fields (fields : dict) : list (list dict * dict) :=
            match fields with
            | [] => []
            | (k, v) :: rest =>
                if String.eqb k "children" then
                  match v with
                  | JArr items => flat_map (walk (ancestors ++ [d])) items
                  | _ => []
                  end
                else in_fields rest
            end) d
  | _ => []
  end.

Definition preorder (node : json) : list dict :=
  map snd (walk [] node).

(** The name an ancestor contributes to a path. *)
Definition ancestor_name (d : dict) : string :=
  match dict_get "name" d with
  | Some (JStr s) => s
  | _ => "unnamed"
  end.

(** Each ancestor's name with a slash before it. *)
Definition slash_path (ancestors : list dict) : string :=
  fold_right (fun a rest => "/" +++ ancestor_name a +++ rest) "" ancestors.

(** The ancestors' names with a slash between them. *)
Definition joined_names (ancestors : list dict) : string :=
  String.concat "/" (map ancestor_name ancestors).

(** The records of the qualifying objects among [visited], in order,
    with paths starting from [base]. *)
Definition records (base : string) (visited : list (list dict * dict))
  : list component :=
  map (fun v => component_info (snd v) (base +++ slash_path (fst v)))
      (filter (fun v => qualifiesb (snd v)) visited).

(** The record an object adds for itself. *)
Definition own_record (node : json) (path : string) : list component :=
  match node with
  | JObj d => [component_info d path]
  | _ => []
  end.

(** What the name of a record can be: a string with "Button" in it, or a
    list or dict that has "Button" as an element or key. *)
Definition name_passed_test (c : component) : Prop :=
  match c_name c with
  | JStr s => contains "Button" s
  | JArr _ | JObj _ => True
  | _ => False
  end.

(** The fixed token categories, each with the field it is read from. *)
Definition plain_categories : list (string * string) :=
  [("fills", "fills"); ("strokes", "strokes"); ("effects", "effects");
   ("cornerRadius", "cornerRadius"); ("itemSpacing", "itemSpacing");
   ("layoutMode", "layoutMode"); ("text", "characters");
   ("textStyle", "style")].

Definition categories : list string :=
  ["fills"; "strokes"; "effects"; "cornerRadius"; "padding"; "itemSpacing";
   "layoutMode"; "text"; "textStyle"].

(** ** Notions for the further properties *)

Definition exc_map {A B} (f : A -> B) (c : exc A) : exc B :=
  match c with
  | Ok a => Ok (f a)
  | Raise e => Raise e
  end.

(** The record with [prefix] put before its path. *)
Definition shift (prefix : string) (c : component) : component :=
  {| c_name := c_name c;
     c_id := c_id c;
     c_path := prefix +++ c_path c;
     c_properties := c_properties c |}.

(** The values [in] and [for] accept on their right: [str], [list] and
    [dict]. *)
Definition iterable (v : json) : bool :=
  match v with
  | JStr _ | JArr _ | JObj _ => true
  | _ => false
  end.

(** An object the search gets through: it is not of type "COMPONENT", or
    its name is missing or iterable; and its [children], if any, are
    iterable. *)
Definition searchable (d : dict) : bool :=
  (negb (py_eq_str (dict_get_or "type" d JNull) "COMPONENT")
   || iterable (dict_get_or "name" d (JStr "")))
  && match dict_get "children" d with
     | Some children => iterable children
     | None => true
     end.

(** The field a category is read from, and whether a node has it. *)
Definition category_source (category : string) : string :=
  if String.eqb category "padding" then "paddingLeft"
  else if String.eqb category "text" then "characters"
  else if String.eqb category "textStyle" then "style"
  else category.

Definition category_present (node : dict) (category : string) : bool :=
  has_key (category_source category) node.

(** The first name among the records that [set] cannot hash. *)
Fixpoint first_unhashable (components : list component) : option json :=
  match components with
  | [] => None
  | c :: rest =>
      match c_name c with
      | JArr _ | JObj _ => Some (c_name c)
      | _ => first_unhashable rest
      end
  end.

(** A list of strings in ascending order. *)
Fixpoint ascending (l : list string) : Prop :=
  match l with
  | [] => True
  | x :: rest =>
      match rest with
      | [] => True
      | y :: _ => String.leb x y = true
      end /\ ascending rest
  end.

(** Sample documents used to exercise the definitions. *)

Definition button_primary_fields : dict :=
  [("type", JStr "COMPONENT"); ("name", JStr "ButtonPrimary");
   ("id", JStr "1:2"); ("paddingLeft", JInt 8); ("paddingRight", JInt 8)].

Definition lowercase_button_fields : dict :=
  [("type", JStr "COMPONENT"); ("name", JStr "button-primary");
   ("id", JStr "1:3")].

Definition icon_fields : dict :=
  [("type", JStr "COMPONENT"); ("name", JStr "Button/Icon");
   ("id", JStr "1:5")].

Definition nested_button_fields : dict :=
  [("type", JStr "COMPONENT"); ("name", JStr "Button/Primary");
   ("id", JStr "1:4"); ("children", JArr [JInt 7; JObj icon_fields])].

Definition sample_page_fields : dict :=
  [("type", JStr "CANVAS"); ("name", JStr "Page");
   ("children", JArr [JObj button_primary_fields;
                      JObj lowercase_button_fields;
                      JStr "note";
                      JObj nested_button_fields])].

Definition sample_document_fields : dict :=
  [("type", JStr "DOCUMENT"); ("name", JStr "Doc");
   ("children", JArr [JObj sample_page_fields])].

Definition sample_document : json := JObj sample_document_fields.

(** Twelve buttons under a frame without a name. *)
Definition crowded_fields : dict :=
  [("type", JStr "FRAME");
   ("children", JArr (repeat (JObj button_primary_fields) 12))].

Definition crowded_document : json := JObj crowded_fields.

(** Stand-ins for the interpreter's [str()], the encoder's string quoting
    and [json.load], good on the sample inputs; the loader knows three
    file contents by name and rejects every other one. *)
Definition sample_str (v : json) : string :=
  match v with
  | JNull => "None"
  | JInt z => int_str z
  | _ => "?"
  end.

Definition sample_quote (s : string) : string :=
  String (ascii_of_nat 34) s +++ String (ascii_of_nat 34) "".

Definition sample_load (text : string) : exc json :=
  if String.eqb text "sample" then Ok (JObj [("document", sample_document)])
  else if String.eqb text "crowded" then Ok (JObj [("document", crowded_document)])
  else if String.eqb text "empty" then Ok (JObj [("name", JStr "Untitled")])
  else Raise (Exception "JSONDecodeError"
                "Expecting value: line 1 column 1 (char 0)").

Definition sample_world : world :=
  {| input_file := Some "sample"; output_file := None; console := [] |}.

Definition crowded_world : world :=
  {| input_file := Some "crowded"; output_file := None; console := [] |}.

Definition keyless_world : world :=
  {| input_file := Some "empty"; output_file := Some "old"; console := [] |}.

Definition broken_world : world :=
  {| input_file := Some "not json"; output_file := Some "old"; console := [] |}.

Definition bare_world : world :=
  {| input_file := None; output_file := Some "old"; console := [] |}.

(** Further sample inputs: a component whose name is null, a frame whose
    children are a number, a component whose name is a list. *)
Definition null_name_fields : dict :=
  [("type", JStr "COMPONENT"); ("name", JNull)].

Definition bad_children_fields : dict :=
  [("type", JStr "FRAME"); ("name", JStr "Frame"); ("children", JInt 5)].

Definition text_children_fields : dict :=
  [("type", JStr "COMPONENT"); ("name", JStr "Button/Text");
   ("children", JStr "ab")].

Definition list_name_fields : dict :=
  [("type", JStr "COMPONENT"); ("name", JArr [JStr "Button"])].

(** A loader that returns [v] whatever the file holds. *)
Definition constant_load (v : json) (text : string) : exc json := Ok v.

Definition any_world : world :=
  {| input_file := Some "..."; output_file := Some "old"; console := ["$"] |}.

Section Script.

(** What the script takes from the interpreter and the [json] module:
    [py_str v] is [str(v)], [encode_str s] is the quoted, escaped JSON
    text of [s], [json_load text] is [json.load] reading [text]. *)
Variable py_str : json -> string.
Variable encode_str : string -> string.
Variable json_load : string -> exc json.

(** [f"{v}"]: a [str] is inserted as it is. *)
Definition format_value (v : json) : string :=
  match v with
  | JStr s => s
  | _ => py_str v
  end.

(** ** [find_components] *)

(** [depth] bounds the nesting of calls; [components] is the list the
    calls append to, returned at the end. *)
Fixpoint find_components_rec (depth : nat) (node : json) (path : string)
    (components : list component) {struct depth} : exc (list component) :=
  match depth with
  | O => Raise (Exception "RecursionError" "maximum recursion depth exceeded")
  | S depth' =>
      match node with
      | JObj d =>
          matched <- is_button_component d ;;
          let components :=
            if matched then components ++ [component_info d path]
            else components in
          match dict_get "children" d with
          | Some children =>
              let new_path :=
                path +++ "/"
                +++ format_value (dict_get_or "name" d (JStr "unnamed")) in
              items <- py_iter children ;;
              for_each items
                (fun child acc => find_components_rec depth' child new_path acc)
                components
          | None => Ok components
          end
      | _ => Ok components
      end
  end.

Definition find_components (node : json) (path : string)
    (components : list component) : exc (list component) :=
  find_components_rec (S (json_height node)) node path components.

(** Lines 53-56 alone: the loop over the children of [node], run on the
    list accumulated so far. *)
Definition find_in_children (node : json) (path : string)
    (components : list component) : exc (list component) :=
  match node with
  | JObj d =>
      match dict_get "children" d with
      | Some children =>
          let new_path :=
            path +++ "/"
            +++ format_value (dict_get_or "name" d (JStr "unnamed")) in
          items <- py_iter children ;;
          for_each items
            (fun child acc => find_components child new_path acc)
            components
      | None => Ok components
      end
  | _ => Ok components
  end.

(** ** [json.dump] *)

Fixpoint json_dumps (level : nat) (v : json) : string :=
  match v with
  | JNull => "null"
  | JBool true => "true"
  | JBool false => "false"
  | JInt z => int_str z
  | JFloat repr => float_json repr
  | JStr s => encode_str s
  | JArr [] => "[]"
  | JArr items =>
      "[" +++ newline_indent (S level)
      +++ String.concat ("," +++ newline_indent (S level))
            (map (json_dumps (S level)) items)
      +++ newline_indent level +++ "]"
  | JObj [] => "{}"
  | JObj fields =>
      "{" +++ newline_indent (S level)
      +++ String.concat ("," +++ newline_indent (S level))
            (map (fun kv => encode_str (fst kv) +++ ": "
                            +++ json_dumps (S level) (snd kv)) fields)
      +++ newline_indent level +++ "}"
  end.

Definition component_json (c : component) : json :=
  JObj [("name", c_name c); ("id", c_id c); ("path", JStr (c_path c));
        ("properties", JObj (c_properties c))].

(** ** [extract_button_tokens] and the [__main__] block *)

(** [with open(file_path, 'r') as f: data = json.load(f)] *)
Definition load_input : script json :=
  fun w =>
    match input_file w with
    | Some text => (json_load text, w)
    | None =>
        (Raise (Exception "FileNotFoundError"
                  "[Errno 2] No such file or directory: '.figma/cache/file-full.json'"),
         w)
    end.

(** The key a name has in [set(c['name'] for c in components)]: lists and
    dicts cannot be hashed.  A name that passed the test of line 17 is a
    [str], a [list] or a [dict] ([passed_test] below), so the last case
    only ever sees a [str]. *)
Definition hashed_name (c : component) : exc string :=
  match c_name c with
  | JArr _ | JObj _ =>
      Raise (Exception "TypeError"
               ("unhashable type: '" +++ py_type_name (c_name c) +++ "'"))
  | v => Ok (format_value v)
  end.

Fixpoint hashed_names (components : list component) : exc (list string) :=
  match components with
  | [] => Ok []
  | c :: rest =>
      n <- hashed_name c ;; ns <- hashed_names rest ;; Ok (n :: ns)
  end.

(** [sum(1 for c in components if c['name'] == name)] *)
Definition count_name (name : string) (components : list component) : nat :=
  length (filter (fun c => py_eq_str (c_name c) name) components).

Definition extract_button_tokens : script (list component) :=
  print "🔍 Analizando archivo de Figma..." ;;;
  data <~ load_input ;;
  print "✅ Archivo cargado" ;;;
  print "🔎 Buscando componentes Button..." ;;;
  document <~ lift (py_get_method data "document" (JObj [])) ;;
  components <~ lift (find_components document "" []) ;;
  print ("✅ Encontrados " +++ nat_str (length components)
         +++ " componentes Button") ;;;
  names <~ lift (hashed_names components) ;;
  let unique_names := nodup string_dec names in
  print (nl +++ "📋 Variantes encontradas ("
         +++ nat_str (length unique_names) +++ "):") ;;;
  print_all
    (map (fun name =>
            "   - " +++ name +++ " ("
            +++ nat_str (count_name name components) +++ " instancias)")
         (sorted unique_names)) ;;;
  write_output
    (json_dumps 0 (JArr (map component_json (firstn 10 components)))) ;;;
  print (nl +++ "💾 Primeros componentes guardados en: "
         +++ ".figma/cache/button-components.json") ;;;
  script_ret components.

(** The [__main__] block: the world it leaves and the exit status. *)
Definition main (w : world) : world * nat :=
  match input_file w with
  | None =>
      let '(_, w') :=
        (print "❌ No se encontró el archivo file-full.json" ;;;
         print "   Ejecuta primero el comando para descargar el archivo") w in
      (w', 1)
  | Some _ =>
      match extract_button_tokens w with
      | (Ok _, w') =>
          let '(_, w'') := print (nl +++ "✅ Extracción completada!") w' in
          (w'', 0)
      | (Raise e, w') =>
          let '(_, w'') := print ("❌ Error: " +++ exn_message e) w' in
          (w'', 1)
      end
  end.


(** The lines [extract_button_tokens] prints when nothing fails. *)
Definition summary_lines (components : list component) (names : list string)
  : list string :=
  ["🔍 Analizando archivo de Figma..."; "✅ Archivo cargado";
   "🔎 Buscando componentes Button...";
   "✅ Encontrados " +++ nat_str (length components) +++ " componentes Button";
   nl +++ "📋 Variantes encontradas ("
   +++ nat_str (length (nodup string_dec names)) +++ "):"]
  ++ map (fun name =>
            "   - " +++ name +++ " ("
            +++ nat_str (count_name name components) +++ " instancias)")
       (sorted (nodup string_dec names))
  ++ [nl +++ "💾 Primeros componentes guardados en: "
      +++ ".figma/cache/button-components.json"].

(** ** Worlds that differ only in what the script does not read *)

(** The world with the given input file, no output file and an empty
    console. *)
Definition blank (input : option string) : world :=
  {| input_file := input; output_file := None; console := [] |}.

(** What a run from [blank] ended in, replayed on top of [w]. *)
Definition replay (ended w : world) : world :=
  {| input_file := input_file w;
     output_file := match output_file ended with
                    | Some text => Some text
                    | None => output_file w
                    end;
     console := console w ++ console ended |}.

Definition relocate {A} (r : exc A * world) (w : world) : exc A * world :=
  (fst r, replay (snd r) w).

(** A script reads nothing but the input file, leaves it alone, and only
    adds to the console. *)
Definition framed {A} (c : script A) : Prop :=
  forall w, c w = relocate (c (blank (input_file w))) w.

(** * Properties *)

(** ** Strings *)

Lemma append_assoc (a b c : string) : (a +++ b) +++ c = a +++ b +++ c.
Proof.
  induction a as [|ch a IH]; simpl; [reflexivity | now rewrite IH].
Qed.

Lemma append_nil_r (a : string) : a +++ "" = a.
Proof.
  induction a as [|ch a IH]; simpl; [reflexivity | now rewrite IH].
Qed.

Lemma prefix_split (n s : string) :
  String.prefix n s = true <-> exists after, s = n +++ after.
Proof.
  revert s. induction n as [|a n IH]; intros s.
  - split; intros _.
    + exists s. reflexivity.
    + destruct s; reflexivity.
  - destruct s as [|b s]; simpl.
    + split; [discriminate | intros [after H]; discriminate].
    + destruct (ascii_dec a b) as [->|Hne].
      * rewrite IH. split; intros [after H]; exists after.
        -- now rewrite H.
        -- now inversion H.
      * split; [discriminate | intros [after H]; inversion H; congruence].
Qed.

Lemma is_substring_contains (n s : string) :
  is_substring n s = true <-> contains n s.
Proof.
  induction s as [|c s IH].
  - cbn [is_substring]. rewrite orb_false_r, prefix_split. split.
    + intros [after H]. exists "", after. exact H.
    + intros [before [after H]]. destruct before; [|discriminate].
      exists after. exact H.
  - cbn [is_substring]. rewrite orb_true_iff, prefix_split, IH. split.
    + intros [[after H] | [before [after H]]].
      * exists "", after. exact H.
      * exists (String c before), after. simpl. now rewrite H.
    + intros [before [after H]]. destruct before as [|c' before].
      * left. exists after. exact H.
      * right. exists before, after. simpl in H. now inversion H.
Qed.

(** ** Depth of the recursion *)

Lemma dict_get_height (key : string) (d : dict) (v : json) :
  dict_get key d = Some v -> json_height v < json_height (JObj d).
Proof.
  cbn [json_height]. induction d as [|[k w] d IH]; cbn [dict_get fold_right snd].
  - discriminate.
  - destruct (String.eqb k key).
    + intros H. inversion H. subst. lia.
    + intros H. specialize (IH H). lia.
Qed.

Lemma items_height (x : json) (items : list json) :
  In x items -> json_height x < json_height (JArr items).
Proof.
  cbn [json_height]. induction items as [|y items IH]; cbn [In fold_right].
  - contradiction.
  - intros [->|H]; [lia | specialize (IH H); lia].
Qed.

Lemma py_iter_height (children : json) (items : list json) (x : json) :
  py_iter children = Ok items -> In x items ->
  json_height x <= json_height children.
Proof.
  destruct children; cbn [py_iter]; intros H; inversion H; subst; clear H.
  - intros Hin. apply in_map_iff in Hin. destruct Hin as [c [<- _]].
    cbn. lia.
  - intros Hin. apply items_height in Hin. lia.
  - intros Hin. apply in_map_iff in Hin. destruct Hin as [kv [<- _]].
    cbn [json_height]. lia.
Qed.

Lemma child_height (d : dict) (children : json) (items : list json) (x : json) :
  dict_get "children" d = Some children ->
  py_iter children = Ok items ->
  In x items ->
  json_height x < json_height (JObj d).
Proof.
  intros Hget Hiter Hin.
  apply dict_get_height in Hget.
  pose proof (py_iter_height _ _ _ Hiter Hin). lia.
Qed.

Lemma for_each_ext {A S : Type} (items : list A) (f g : A -> S -> exc S) (s : S) :
  (forall x, In x items -> forall s', f x s' = g x s') ->
  for_each items f s = for_each items g s.
Proof.
  revert s. induction items as [|x items IH]; intros s H; cbn [for_each].
  - reflexivity.
  - rewrite (H x (or_introl eq_refl)).
    destruct (g x s); cbn [exc_bind]; [|reflexivity].
    apply IH. intros y Hy. apply H. now right.
Qed.

(** Any depth above the height of the node gives the same result. *)
Lemma find_components_rec_depth (n m : nat) (node : json) (path : string)
    (components : list component) :
  json_height node < n -> json_height node < m ->
  find_components_rec n node path components
  = find_components_rec m node path components.
Proof.
  revert m node path components.
  induction n as [|n IH]; intros m node path components Hn Hm; [lia|].
  destruct m as [|m]; [lia|].
  destruct node; try reflexivity.
  cbn [find_components_rec].
  destruct (is_button_component fields) as [matched|e]; cbn [exc_bind];
    [|reflexivity].
  destruct (dict_get "children" fields) as [children|] eqn:Hget; [|reflexivity].
  destruct (py_iter children) as [items|e] eqn:Hiter; cbn [exc_bind];
    [|reflexivity].
  apply for_each_ext. intros x Hin acc.
  pose proof (child_height _ _ _ _ Hget Hiter Hin).
  apply IH; lia.
Qed.

(** [find_components] obeys the equation the source is written as. *)
Lemma find_components_eq (node : json) (path : string)
    (components : list component) :
  find_components node path components
  = match node with
    | JObj d =>
        matched <- is_button_component d ;;
        find_in_children node path
          (if matched then components ++ [component_info d path]
           else components)
    | _ => Ok components
    end.
Proof.
  unfold find_components. destruct node; try reflexivity.
  cbn [find_components_rec find_in_children].
  destruct (is_button_component fields) as [matched|e]; cbn [exc_bind];
    [|reflexivity].
  destruct (dict_get "children" fields) as [children|] eqn:Hget; [|reflexivity].
  destruct (py_iter children) as [items|e] eqn:Hiter; cbn [exc_bind];
    [|reflexivity].
  apply for_each_ext. intros x Hin acc. unfold find_components.
  pose proof (child_height _ _ _ _ Hget Hiter Hin).
  apply find_components_rec_depth; lia.
Qed.

(** ** The matching rule *)

Lemma qualifiesb_spec (d : dict) :
  qualifiesb d = true <-> button_component d.
Proof.
  unfold qualifiesb, button_component. rewrite andb_true_iff.
  assert (Ht : forall o : option json,
             match o with
             | Some (JStr t) => String.eqb t "COMPONENT"
             | _ => false
             end = true <-> o = Some (JStr "COMPONENT")).
  { intros [[]|]; try (split; intros H; discriminate H).
    rewrite String.eqb_eq. split; [now intros -> | now inversion 1]. }
  assert (Hn : forall v : json,
             match v with
             | JStr name => is_substring "Button" name
             | _ => false
             end = true
             <-> exists name, v = JStr name /\ contains "Button" name).
  { intros []; try (split; [discriminate | intros [name [H _]]; discriminate H]).
    rewrite is_substring_contains. split.
    - intros H. now exists s.
    - intros [name [H Hc]]. now inversion H. }
  rewrite Ht, Hn. reflexivity.
Qed.

Lemma is_button_typed (d : dict) :
  name_typed d -> is_button_component d = Ok (qualifiesb d).
Proof.
  unfold name_typed, is_button_component, qualifiesb, dict_get_or, py_eq_str.
  destruct (dict_get "type" d) as [[]|]; try reflexivity.
  destruct (String.eqb s "COMPONENT"); [|reflexivity].
  destruct (dict_get "name" d) as [[]|]; try contradiction; reflexivity.
Qed.

Lemma format_typed (d : dict) :
  name_typed d ->
  format_value (dict_get_or "name" d (JStr "unnamed")) = ancestor_name d.
Proof.
  unfold name_typed, dict_get_or, ancestor_name.
  destruct (dict_get "name" d) as [[]|]; try contradiction; reflexivity.
Qed.

(** ** The walk *)

Lemma children_lookup {B : Type} (f : json -> list B) (d : dict) :
  (fix in_fields (fields : dict) : list B :=
     match fields with
     | [] => []
     | (k, v) :: rest =>
         if String.eqb k "children" then
           match v with
           | JArr items => flat_map f items
           | _ => []
           end
         else in_fields rest
     end) d
  = flat_map f (children_of d).
Proof.
  unfold children_of.
  induction d as [|[k v] d IH]; cbn [dict_get]; [reflexivity|].
  destruct (String.eqb k "children"); [destruct v; reflexivity | exact IH].
Qed.

Lemma walk_unfold (ancestors : list dict) (d : dict) :
  walk ancestors (JObj d)
  = (ancestors, d) :: flat_map (walk (ancestors ++ [d])) (children_of d).
Proof.
  cbn [walk]. f_equal. exact (children_lookup (walk (ancestors ++ [d])) d).
Qed.

Lemma walk_not_dict (ancestors : list dict) (node : json) :
  is_dict node = false -> walk ancestors node = [].
Proof.
  destruct node; cbn; intros H; [reflexivity .. | discriminate H].
Qed.

Lemma slash_path_snoc (ancestors : list dict) (d : dict) :
  slash_path (ancestors ++ [d]) = slash_path ancestors +++ "/" +++ ancestor_name d.
Proof.
  unfold slash_path.
  induction ancestors as [|a ancestors IH]; cbn [app fold_right].
  - cbn. now rewrite append_nil_r.
  - rewrite IH. cbn. now rewrite append_assoc.
Qed.

Lemma records_app (base : string) (l1 l2 : list (list dict * dict)) :
  records base (l1 ++ l2) = records base l1 ++ records base l2.
Proof.
  unfold records. now rewrite filter_app, map_app.
Qed.

Lemma records_flat_map {A : Type} (base : string)
    (f : A -> list (list dict * dict)) (l : list A) :
  records base (flat_map f l) = flat_map (fun x => records base (f x)) l.
Proof.
  induction l as [|x l IH]; cbn [flat_map]; [reflexivity|].
  now rewrite records_app, IH.
Qed.

Lemma flat_map_nil {A B : Type} (f : A -> list B) (l : list A) :
  (forall x, In x l -> f x = []) -> flat_map f l = [].
Proof.
  induction l as [|x l IH]; cbn [flat_map]; intros H; [reflexivity|].
  rewrite (H x (or_introl eq_refl)), IH; [reflexivity|].
  intros y Hy. apply H. now right.
Qed.

(** Iterating over a [children] value that is not an array yields only
    strings, which the walk passes over. *)
Lemma iter_children_records (base : string) (below : list dict) (d : dict)
    (children : json) (items : list json) :
  dict_get "children" d = Some children ->
  py_iter children = Ok items ->
  flat_map (fun x => records base (walk below x)) items
  = records base (flat_map (walk below) (children_of d)).
Proof.
  intros Hget Hiter. unfold children_of. rewrite Hget.
  destruct children; cbn [py_iter] in Hiter; inversion Hiter; subst; clear Hiter.
  - apply flat_map_nil. intros x Hin.
    apply in_map_iff in Hin. destruct Hin as [c [<- _]]. reflexivity.
  - symmetry. apply records_flat_map.
  - apply flat_map_nil. intros x Hin.
    apply in_map_iff in Hin. destruct Hin as [kv [<- _]]. reflexivity.
Qed.

Lemma for_each_append {A B : Type} (items : list A)
    (body : A -> list B -> exc (list B)) (g : A -> list B) (acc : list B) :
  (forall x, In x items -> forall acc', body x acc' = Ok (acc' ++ g x)) ->
  for_each items body acc = Ok (acc ++ flat_map g items).
Proof.
  revert acc. induction items as [|x items IH]; intros acc H; cbn [for_each flat_map].
  - now rewrite app_nil_r.
  - rewrite (H x (or_introl eq_refl)). cbn [exc_bind].
    rewrite IH; [now rewrite app_assoc|].
    intros y Hy. apply H. now right.
Qed.

(** On a document tree [find_components] returns, and what it appends is
    the records of the qualifying objects of the walk, in the order of
    the walk. *)
Lemma find_components_walk (n : nat) (node : json) :
  json_height node < n ->
  DocumentTree node ->
  forall (base : string) (ancestors : list dict) (components : list component),
    find_components node (base +++ slash_path ancestors) components
    = Ok (components ++ records base (walk ancestors node)).
Proof.
  revert node. induction n as [|n IH]; intros node Hn Htree; [lia|].
  intros base ancestors components. rewrite find_components_eq.
  inversion Htree as [node' Hnd | d Hname Hleaf | d children items Hname Hget Hiter Hall];
    subst.
  - rewrite (walk_not_dict _ _ Hnd). cbn [records filter map].
    rewrite app_nil_r. destruct node; try reflexivity. discriminate Hnd.
  - rewrite (is_button_typed _ Hname). cbn [exc_bind find_in_children].
    rewrite Hleaf, walk_unfold. unfold children_of. rewrite Hleaf.
    cbn [flat_map]. unfold records. cbn [filter snd fst].
    destruct (qualifiesb d); cbn [map snd fst]; [reflexivity|].
    now rewrite app_nil_r.
  - rewrite (is_button_typed _ Hname). cbn [exc_bind find_in_children].
    rewrite Hget, Hiter. cbn [exc_bind].
    rewrite (format_typed _ Hname), append_assoc, <- slash_path_snoc.
    rewrite (for_each_append items _
               (fun x => records base (walk (ancestors ++ [d]) x))).
    + rewrite (iter_children_records _ _ _ _ _ Hget Hiter), walk_unfold.
      change ((ancestors, d) :: ?l) with ([(ancestors, d)] ++ l).
      rewrite records_app. unfold records at 2. cbn [filter snd fst].
      destruct (qualifiesb d); cbn [map snd fst].
      * now rewrite <- app_assoc.
      * reflexivity.
    + intros x Hin acc.
      pose proof (child_height _ _ _ _ Hget Hiter Hin).
      apply IH; [lia|].
      rewrite Forall_forall in Hall. now apply Hall.
Qed.

Lemma find_components_records (root : json) (path : string)
    (components : list component) :
  DocumentTree root ->
  find_components root path components
  = Ok (components ++ records path (walk [] root)).
Proof.
  intros Htree.
  rewrite <- (append_nil_r path) at 1.
  exact (find_components_walk (S (json_height root)) root
           (Nat.lt_succ_diag_r _) Htree path [] components).
Qed.

Lemma qualifies_dict (d : dict) :
  qualifies (JObj d) <-> qualifiesb d = true.
Proof.
  rewrite qualifiesb_spec. unfold qualifies. split.
  - intros [d' [Heq H]]. now inversion Heq.
  - intros H. now exists d.
Qed.

(** C1. A node is recorded exactly when it is an object of type
    "COMPONENT" whose name, taken as empty when missing, contains "Button"
    as a case-sensitive substring: a qualifying node has its record
    appended before the children are searched, any other node has nothing
    appended for itself.  A node named "button-primary" does not qualify,
    a component named "ButtonPrimary" does. *)
Theorem match_rule (node : json) (path : string) (components : list component) :
  node_name_typed node ->
  (qualifies node ->
   find_components node path components
   = find_in_children node path (components ++ own_record node path))
  /\ (~ qualifies node ->
      find_components node path components
      = find_in_children node path components)
  /\ (forall d, dict_get "name" d = Some (JStr "button-primary") ->
                ~ qualifies (JObj d))
  /\ (forall d, dict_get "type" d = Some (JStr "COMPONENT") ->
                dict_get "name" d = Some (JStr "ButtonPrimary") ->
                qualifies (JObj d)).
Proof.
  intros Hty. repeat split.
  - intros Hq. rewrite find_components_eq.
    destruct node; try (destruct Hq as [d [Heq _]]; discriminate Heq).
    cbn [node_name_typed] in Hty. rewrite (is_button_typed _ Hty).
    apply qualifies_dict in Hq. rewrite Hq. reflexivity.
  - intros Hq. rewrite find_components_eq.
    destruct node; try reflexivity.
    cbn [node_name_typed] in Hty. rewrite (is_button_typed _ Hty).
    rewrite qualifies_dict in Hq.
    destruct (qualifiesb fields); [now contradiction Hq | reflexivity].
  - intros d Hname Hq. apply qualifies_dict, qualifiesb_spec in Hq.
    destruct Hq as [_ [name [Hn Hc]]].
    unfold dict_get_or in Hn. rewrite Hname in Hn. inversion Hn. subst name.
    apply is_substring_contains in Hc. discriminate Hc.
  - intros d Htype Hname. apply qualifies_dict, qualifiesb_spec.
    split; [exact Htype|]. exists "ButtonPrimary". split.
    + unfold dict_get_or. now rewrite Hname.
    + now apply is_substring_contains.
Qed.

(** C2, as the code has it. The path of a match is made of the names of
    its ancestors, from the root down to its parent, each preceded by
    "/", where an ancestor without a name counts as "unnamed"; the
    root's path is empty, and a node's path is its parent's path, then
    "/", then the parent's name. *)
Theorem path_of_match (root : json) :
  DocumentTree root ->
  find_components root "" []
  = Ok (map (fun v => component_info (snd v) (slash_path (fst v)))
          (filter (fun v => qualifiesb (snd v)) (walk [] root)))
  /\ slash_path [] = ""
  /\ (forall ancestors parent,
        slash_path (ancestors ++ [parent])
        = slash_path ancestors +++ "/" +++ ancestor_name parent)
  /\ (forall ancestors d,
        walk ancestors (JObj d)
        = (ancestors, d) :: flat_map (walk (ancestors ++ [d])) (children_of d)).
Proof.
  intros Htree. repeat split.
  - rewrite (find_components_records root "" [] Htree). reflexivity.
  - exact slash_path_snoc.
  - exact walk_unfold.
Qed.

(** ** Token categories *)

Lemma dict_get_set (key k : string) (v : json) (p : dict) :
  dict_get key (dict_set k v p)
  = if String.eqb k key then Some v else dict_get key p.
Proof.
  induction p as [|[a w] p IH]; cbn [dict_set dict_get]; [reflexivity|].
  destruct (String.eqb_spec a k) as [->|Hak]; cbn [dict_get].
  - destruct (String.eqb k key); reflexivity.
  - rewrite IH.
    destruct (String.eqb_spec a key) as [->|Hakey]; [|reflexivity].
    destruct (String.eqb_spec k key) as [->|]; [congruence | reflexivity].
Qed.

Lemma dict_get_copy_same (src key : string) (d p : dict) :
  dict_get key (copy_if_present src key d p)
  = match dict_get src d with
    | Some v => Some v
    | None => dict_get key p
    end.
Proof.
  unfold copy_if_present. destruct (dict_get src d); [|reflexivity].
  now rewrite dict_get_set, String.eqb_refl.
Qed.

Lemma dict_get_copy_other (src dst key : string) (d p : dict) :
  String.eqb dst key = false ->
  dict_get key (copy_if_present src dst d p) = dict_get key p.
Proof.
  intros Hne. unfold copy_if_present. destruct (dict_get src d); [|reflexivity].
  now rewrite dict_get_set, Hne.
Qed.

Lemma dict_get_set_other (k key : string) (v : json) (p : dict) :
  String.eqb k key = false -> dict_get key (dict_set k v p) = dict_get key p.
Proof.
  intros Hne. now rewrite dict_get_set, Hne.
Qed.

Ltac skip_other_categories :=
  repeat first
    [ rewrite dict_get_copy_other by reflexivity
    | rewrite dict_get_set_other by reflexivity ].

Ltac read_category d :=
  unfold extract_properties;
  destruct (has_key "paddingLeft" d);
  skip_other_categories; rewrite dict_get_copy_same;
  skip_other_categories;
  match goal with
  | |- match ?o with Some _ => _ | None => _ end = _ => destruct o; reflexivity
  end.

(** C3. In the properties of a record each plain category is bound
    exactly when its source field is on the node, to that field's value;
    "padding" is bound exactly when "paddingLeft" is on the node, to the
    four sides with null for a side that is missing; and no other key is
    bound. *)
Theorem properties_follow_presence (d : dict) (path : string) :
  let properties := c_properties (component_info d path) in
  (forall category source,
     In (category, source) plain_categories ->
     dict_get category properties = dict_get source d)
  /\ dict_get "padding" properties
     = (if has_key "paddingLeft" d
        then Some (JObj [("left", dict_get_or "paddingLeft" d JNull);
                         ("right", dict_get_or "paddingRight" d JNull);
                         ("top", dict_get_or "paddingTop" d JNull);
                         ("bottom", dict_get_or "paddingBottom" d JNull)])
        else None)
  /\ (forall key, dict_get key properties <> None -> In key categories)
  /\ (dict_get "paddingLeft" d = Some (JInt 8) ->
      dict_get "paddingRight" d = Some (JInt 8) ->
      dict_get "paddingTop" d = None ->
      dict_get "paddingBottom" d = None ->
      dict_get "padding" properties
      = Some (JObj [("left", JInt 8); ("right", JInt 8);
                    ("top", JNull); ("bottom", JNull)])).
Proof.
  clear py_str encode_str json_load.
  cbn [component_info c_properties].
  assert (Hpad : dict_get "padding" (extract_properties d)
                 = if has_key "paddingLeft" d then Some (padding_of d) else None).
  { unfold extract_properties. destruct (has_key "paddingLeft" d);
      skip_other_categories.
    - now rewrite dict_get_set.
    - reflexivity. }
  split; [|split; [exact Hpad | split]].
  - intros category source Hin. cbn [plain_categories In] in Hin.
    repeat (destruct Hin as [Heq|Hin];
            [inversion Heq; subst; clear Heq; read_category d|]).
    contradiction.
  - intros key Hkey. unfold categories. cbn [In].
    destruct (String.eqb_spec "fills" key); [tauto|].
    destruct (String.eqb_spec "strokes" key); [tauto|].
    destruct (String.eqb_spec "effects" key); [tauto|].
    destruct (String.eqb_spec "cornerRadius" key); [tauto|].
    destruct (String.eqb_spec "padding" key); [tauto|].
    destruct (String.eqb_spec "itemSpacing" key); [tauto|].
    destruct (String.eqb_spec "layoutMode" key); [tauto|].
    destruct (String.eqb_spec "text" key); [tauto|].
    destruct (String.eqb_spec "textStyle" key); [tauto|].
    exfalso. apply Hkey. unfold extract_properties.
    destruct (has_key "paddingLeft" d);
      repeat first
        [ rewrite dict_get_copy_other by (now apply String.eqb_neq)
        | rewrite dict_get_set_other by (now apply String.eqb_neq) ];
      reflexivity.
  - intros Hl Hr Ht Hb. rewrite Hpad. unfold has_key, padding_of, dict_get_or.
    now rewrite Hl, Hr, Ht, Hb.
Qed.

(** ** Order of the traversal *)

Lemma children_of_height (d : dict) (x : json) :
  In x (children_of d) -> json_height x < json_height (JObj d).
Proof.
  unfold children_of.
  destruct (dict_get "children" d) as [[]|] eqn:Hget; try contradiction.
  intros Hin. exact (child_height d (JArr items) items x Hget eq_refl Hin).
Qed.

Lemma flat_map_ext_on {A B : Type} (f g : A -> list B) (l : list A) :
  (forall x, In x l -> f x = g x) -> flat_map f l = flat_map g l.
Proof.
  induction l as [|x l IH]; cbn [flat_map]; intros H; [reflexivity|].
  rewrite (H x (or_introl eq_refl)), IH; [reflexivity|].
  intros y Hy. apply H. now right.
Qed.

Lemma map_flat_map {A B C : Type} (h : B -> C) (f : A -> list B) (l : list A) :
  map h (flat_map f l) = flat_map (fun x => map h (f x)) l.
Proof.
  induction l as [|x l IH]; cbn [flat_map]; [reflexivity|].
  now rewrite map_app, IH.
Qed.

(** Which objects the walk lists does not depend on the ancestors it
    starts from. *)
Lemma walk_nodes (n : nat) (node : json) :
  json_height node < n ->
  forall a b, map snd (walk a node) = map snd (walk b node).
Proof.
  revert node. induction n as [|n IH]; intros node Hn a b; [lia|].
  destruct node; try reflexivity.
  rewrite !walk_unfold. cbn [map snd]. f_equal.
  rewrite !map_flat_map. apply flat_map_ext_on. intros x Hin.
  apply IH. apply children_of_height in Hin. lia.
Qed.

Lemma preorder_unfold (d : dict) :
  preorder (JObj d) = d :: flat_map preorder (children_of d).
Proof.
  unfold preorder. rewrite walk_unfold. cbn [map snd]. f_equal.
  rewrite map_flat_map. apply flat_map_ext_on. intros x _.
  exact (walk_nodes (S (json_height x)) x (Nat.lt_succ_diag_r _) _ _).
Qed.

Lemma records_of_nodes (base : string) (visited : list (list dict * dict)) :
  Forall2 (fun c d => exists p, c = component_info d p)
    (records base visited) (filter qualifiesb (map snd visited)).
Proof.
  unfold records.
  induction visited as [|v visited IH]; cbn [filter map]; [constructor|].
  destruct (qualifiesb (snd v)); cbn [map]; [|exact IH].
  constructor; [|exact IH]. now exists (base +++ slash_path (fst v)).
Qed.

(** C5. The search is a pre-order, depth-first walk: what it appends
    corresponds, one for one and in order, to the qualifying objects of
    the pre-order listing of the tree, in which an object comes first and
    is followed by the listings of its children from left to right,
    whether or not it qualifies itself; a value that is not an object
    has an empty listing and leaves the list as it was. *)
Theorem traversal_order (root : json) (path : string)
    (components : list component) :
  DocumentTree root ->
  (exists found,
      find_components root path components = Ok (components ++ found)
      /\ Forall2 (fun c d => exists p, c = component_info d p)
           found (filter qualifiesb (preorder root)))
  /\ (forall d, preorder (JObj d) = d :: flat_map preorder (children_of d))
  /\ (forall node, is_dict node = false ->
        preorder node = []
        /\ forall p acc, find_components node p acc = Ok acc).
Proof.
  intros Htree. split; [|split].
  - exists (records path (walk [] root)). split.
    + exact (find_components_records root path components Htree).
    + apply records_of_nodes.
  - exact preorder_unfold.
  - intros node Hnd. split.
    + unfold preorder. now rewrite (walk_not_dict _ _ Hnd).
    + intros p acc. rewrite find_components_eq.
      destruct node; try reflexivity. discriminate Hnd.
Qed.

(** ** Names and paths of the records *)

Lemma records_forall (P : component -> Prop) (base : string)
    (visited : list (list dict * dict)) :
  (forall v, In v visited -> qualifiesb (snd v) = true ->
             P (component_info (snd v) (base +++ slash_path (fst v)))) ->
  Forall P (records base visited).
Proof.
  intros H. unfold records. apply Forall_forall. intros c Hin.
  apply in_map_iff in Hin. destruct Hin as [v [<- Hv]].
  apply filter_In in Hv. destruct Hv as [Hv Hq]. now apply H.
Qed.

Lemma button_name (d : dict) :
  qualifiesb d = true ->
  exists s, dict_get "name" d = Some (JStr s) /\ contains "Button" s.
Proof.
  intros Hq. apply qualifiesb_spec in Hq. destruct Hq as [_ [name [Hn Hc]]].
  unfold dict_get_or in Hn. destruct (dict_get "name" d) as [v|].
  - subst v. now exists name.
  - inversion Hn. subst name. apply is_substring_contains in Hc.
    discriminate Hc.
Qed.

Lemma records_named (root : json) (path : string) :
  Forall (fun c => exists s, c_name c = JStr s /\ contains "Button" s)
    (records path (walk [] root)).
Proof.
  apply records_forall. intros v _ Hq.
  destruct (button_name _ Hq) as [s [Hs Hc]]. exists s. split; [|exact Hc].
  cbn [component_info c_name]. unfold dict_get_or. now rewrite Hs.
Qed.

(** ** Runs of the script *)

Lemma framed_ret {A} (a : A) : framed (script_ret a).
Proof.
  intros [i o c]. unfold script_ret, relocate, replay, blank. cbn.
  now rewrite app_nil_r.
Qed.

Lemma framed_lift {A} (c : exc A) : framed (lift c).
Proof.
  intros [i o k]. unfold lift, relocate, replay, blank. cbn. now rewrite app_nil_r.
Qed.

Lemma framed_print (line : string) : framed (print line).
Proof.
  intros [i o c]. reflexivity.
Qed.

Lemma framed_write_output (text : string) : framed (write_output text).
Proof.
  intros [i o c]. unfold write_output, relocate, replay, blank. cbn.
  now rewrite app_nil_r.
Qed.

Lemma framed_load_input : framed load_input.
Proof.
  intros [i o c]. unfold load_input, relocate, replay, blank. cbn.
  destruct i; cbn; now rewrite app_nil_r.
Qed.

Lemma framed_bind {A B} (c : script A) (k : A -> script B) :
  framed c -> (forall a, framed (k a)) -> framed (script_bind c k).
Proof.
  intros Hc Hk w. unfold script_bind.
  pose proof (Hc (blank (input_file w))) as Hb.
  rewrite (Hc w). cbn [blank input_file] in Hb.
  destruct (c (blank (input_file w))) as [[a|e] wb]; [|reflexivity].
  assert (Hi : input_file wb = input_file w).
  { apply (f_equal (fun r => input_file (snd r))) in Hb. exact Hb. }
  clear Hb. unfold relocate at 1. cbn [fst snd].
  rewrite (Hk a wb), Hi.
  match goal with |- k a ?w0 = _ => rewrite (Hk a w0) end.
  cbn [replay input_file].
  destruct (k a (blank (input_file w))) as [r wk].
  unfold relocate, replay. cbn [fst snd input_file output_file console].
  f_equal. f_equal.
  - destruct (output_file wk); reflexivity.
  - now rewrite app_assoc.
Qed.

Lemma framed_print_all (lines : list string) : framed (print_all lines).
Proof.
  induction lines as [|l lines IH]; cbn [print_all].
  - apply framed_ret.
  - apply framed_bind; [apply framed_print | intros _; exact IH].
Qed.

Lemma framed_extract : framed extract_button_tokens.
Proof.
  unfold extract_button_tokens.
  repeat first
    [ apply framed_bind; [|intros ?]
    | apply framed_print
    | apply framed_print_all
    | apply framed_lift
    | apply framed_load_input
    | apply framed_write_output
    | apply framed_ret ].
Qed.

(** What a run of the [__main__] block leaves, from what a run on the
    blank world with the same input leaves. *)
Lemma main_relocated (w : world) :
  main w
  = (replay (fst (main (blank (input_file w)))) w,
     snd (main (blank (input_file w)))).
Proof.
  unfold main. cbn [blank input_file].
  destruct (input_file w) as [text|] eqn:Hin.
  - rewrite (framed_extract w), Hin. cbn [blank input_file].
    destruct (extract_button_tokens (blank (Some text))) as [[a|e] wb];
      unfold relocate, replay, print; cbn; now rewrite Hin, <- app_assoc.
  - unfold replay, script_bind, print. cbn. now rewrite Hin, <- app_assoc.
Qed.

(** C8. A run leaves the input file as it was, and what it leaves in
    the output file depends on the input file alone: a second run on
    the world the first one left ends with the same status and the same
    output file, and so does a successful run from any other world with
    that input file. *)
Theorem extraction_is_idempotent (w : world) :
  let w1 := fst (main w) in
  input_file w1 = input_file w
  /\ output_file (fst (main w1)) = output_file w1
  /\ snd (main w1) = snd (main w)
  /\ (forall w', input_file w' = input_file w ->
                 snd (main w) = 0 ->
                 snd (main w') = 0
                 /\ output_file (fst (main w')) = output_file w1).
Proof.
  cbn zeta.
  assert (Hin : input_file (fst (main w)) = input_file w).
  { rewrite main_relocated. reflexivity. }
  split; [exact Hin|]. split; [|split].
  - rewrite (main_relocated (fst (main w))), Hin.
    rewrite (main_relocated w). cbn [fst snd replay output_file].
    destruct (output_file (fst (main (blank (input_file w))))); reflexivity.
  - rewrite (main_relocated (fst (main w))), Hin.
    rewrite (main_relocated w). reflexivity.
  - intros w' Hsame Hok.
    rewrite (main_relocated w'), Hsame.
    rewrite (main_relocated w) in Hok |- *. cbn [fst snd] in Hok |- *.
    split; [exact Hok|].
    cbn [replay fst snd output_file].
    unfold main in Hok |- *. cbn [blank input_file] in Hok |- *.
    destruct (input_file w) as [text|]; [|discriminate Hok].
    destruct (extract_button_tokens (blank (Some text))) as [[a|e] wb] eqn:Hrun;
      [|discriminate Hok].
    unfold extract_button_tokens in Hrun.
    cbn [print fst snd output_file].
    assert (Hout : exists t, output_file wb = Some t).
    { revert Hrun. unfold script_bind, print, load_input, lift, write_output,
        script_ret, blank. cbn [input_file output_file console].
      destruct (json_load text); [|discriminate].
      destruct (py_get_method a0 "document" (JObj [])); [|discriminate].
      destruct (find_components a1 "" []); [|discriminate].
      destruct (hashed_names a2); [|discriminate].
      match goal with
      | |- context [print_all ?ls ?w0] =>
          pose proof (framed_print_all ls w0) as Hp;
          destruct (print_all ls w0) as [[[]|e] wp]
      end; [|discriminate].
      unfold relocate, replay in Hp. cbn in Hp. inversion Hp. subst wp.
      cbn. intros H. inversion H. cbn. eauto. }
    destruct Hout as [t Ht]. now rewrite Ht.
Qed.

Lemma print_all_run (lines : list string) (w : world) :
  print_all lines w
  = (Ok tt, {| input_file := input_file w;
               output_file := output_file w;
               console := console w ++ lines |}).
Proof.
  revert w. induction lines as [|l lines IH]; intros [i o c]; cbn [print_all].
  - unfold script_ret. cbn. now rewrite app_nil_r.
  - unfold script_bind, print. cbn [input_file output_file console].
    rewrite IH. cbn. now rewrite <- app_assoc.
Qed.


Lemma extract_success (w : world) (text : string) (data document : json)
    (components : list component) (names : list string) :
  input_file w = Some text ->
  json_load text = Ok data ->
  py_get_method data "document" (JObj []) = Ok document ->
  find_components document "" [] = Ok components ->
  hashed_names components = Ok names ->
  extract_button_tokens w
  = (Ok components,
     {| input_file := Some text;
        output_file :=
          Some (json_dumps 0 (JArr (map component_json (firstn 10 components))));
        console := console w ++ summary_lines components names |}).
Proof.
  intros Hin Hload Hget Hfind Hnames.
  unfold extract_button_tokens, script_bind, load_input, lift.
  cbn [print input_file output_file console].
  rewrite Hin, Hload, Hget, Hfind, Hnames, print_all_run.
  unfold write_output, script_ret, summary_lines.
  cbn [print input_file output_file console].
  repeat rewrite <- app_assoc. reflexivity.
Qed.

(** What [extract_button_tokens] returns came out of [find_components]
    and went through [set], and its first ten are what was written. *)
Lemma extract_returns (w w' : world) (components : list component) :
  extract_button_tokens w = (Ok components, w') ->
  exists document names,
    find_components document "" [] = Ok components
    /\ hashed_names components = Ok names
    /\ output_file w'
       = Some (json_dumps 0 (JArr (map component_json (firstn 10 components)))).
Proof.
  unfold extract_button_tokens, script_bind, load_input, lift.
  cbn [print input_file output_file console].
  destruct (input_file w); [|discriminate].
  destruct (json_load s) as [data|]; [|discriminate].
  destruct (py_get_method data "document" (JObj [])) as [document|];
    [|discriminate].
  destruct (find_components document "" []) as [found|] eqn:Hfind;
    [|discriminate].
  destruct (hashed_names found) as [names|] eqn:Hnames; [|discriminate].
  rewrite print_all_run. unfold write_output, script_ret.
  cbn [print input_file output_file console].
  intros H. injection H as <- <-. now exists document, names.
Qed.


(** C6. Without the input file the run prints that the file was not
    found and exits with status 1; with an input file that [json.load]
    rejects it prints the parser's message and exits with status 1.
    Either way the output file is left as it was. *)
Theorem failed_run_keeps_output (w : world) :
  (input_file w = None ->
   main w
   = ({| input_file := None;
         output_file := output_file w;
         console := console w
                    ++ ["❌ No se encontró el archivo file-full.json";
                        "   Ejecuta primero el comando para descargar el archivo"]
      |}, 1))
  /\ (forall text e,
        input_file w = Some text ->
        json_load text = Raise e ->
        main w
        = ({| input_file := Some text;
              output_file := output_file w;
              console := console w
                         ++ ["🔍 Analizando archivo de Figma...";
                             "❌ Error: " +++ exn_message e]
           |}, 1)).
Proof.
  split.
  - intros Hin. unfold main. rewrite Hin.
    unfold script_bind, print. cbn [input_file output_file console].
    now rewrite Hin, <- app_assoc.
  - intros text e Hin Hload. unfold main. rewrite Hin.
    unfold extract_button_tokens, script_bind, load_input, print.
    cbn [input_file output_file console].
    rewrite Hin, Hload. cbn [input_file output_file console].
    now rewrite <- app_assoc.
Qed.

(** C7. When the input parses to an object without the key "document",
    the search runs on the empty object and finds nothing, and the run
    succeeds and writes the empty array. *)
Theorem missing_document_key (w : world) (text : string) (data : dict) :
  input_file w = Some text ->
  json_load text = Ok (JObj data) ->
  dict_get "document" data = None ->
  find_components (dict_get_or "document" data (JObj [])) "" [] = Ok []
  /\ main w
     = ({| input_file := Some text;
           output_file := Some "[]";
           console := console w
                      ++ ["🔍 Analizando archivo de Figma...";
                          "✅ Archivo cargado";
                          "🔎 Buscando componentes Button...";
                          "✅ Encontrados 0 componentes Button";
                          nl +++ "📋 Variantes encontradas (0):";
                          nl +++ "💾 Primeros componentes guardados en: "
                          +++ ".figma/cache/button-components.json";
                          nl +++ "✅ Extracción completada!"]
        |}, 0).
Proof.
  intros Hin Hload Hdoc.
  assert (Hroot : dict_get_or "document" data (JObj []) = JObj []).
  { unfold dict_get_or. now rewrite Hdoc. }
  rewrite Hroot. split; [reflexivity|].
  unfold main. rewrite Hin.
  rewrite (extract_success w text (JObj data) (JObj []) [] []
             Hin Hload (f_equal Ok Hroot) eq_refl eq_refl).
  cbn [print input_file output_file console]. f_equal.
  unfold summary_lines. cbn. now rewrite <- app_assoc.
Qed.

(** ** Names of the records, whatever the document *)

Lemma passed_test (d : dict) (path : string) :
  is_button_component d = Ok true ->
  name_passed_test (component_info d path).
Proof.
  unfold is_button_component, name_passed_test, dict_get_or.
  cbn [component_info c_name]. unfold dict_get_or.
  destruct (py_eq_str _ "COMPONENT"); [|discriminate].
  destruct (dict_get "name" d) as [[]|]; cbn [py_in]; try discriminate;
    try (intros _; exact I).
  intros H. injection H as H. apply is_substring_contains. exact H.
Qed.

Lemma for_each_invariant {A B : Type} (P : B -> Prop) (items : list A)
    (body : A -> list B -> exc (list B)) :
  (forall x acc r, In x items -> body x acc = Ok r ->
                   exists f, r = acc ++ f /\ Forall P f) ->
  forall acc r, for_each items body acc = Ok r ->
                exists f, r = acc ++ f /\ Forall P f.
Proof.
  induction items as [|x items IH]; intros Hbody acc r; cbn [for_each].
  - intros H. inversion H. exists []. now rewrite app_nil_r.
  - destruct (body x acc) as [acc'|e] eqn:Hx; cbn [exc_bind]; [|discriminate].
    intros Hrest.
    destruct (Hbody x acc acc' (or_introl eq_refl) Hx) as [f1 [-> Hf1]].
    apply IH in Hrest; [|intros y a r' Hy; apply Hbody; now right].
    destruct Hrest as [f2 [-> Hf2]].
    exists (f1 ++ f2). split; [now rewrite app_assoc|].
    apply Forall_app. now split.
Qed.

Lemma find_components_rec_names (n : nat) (node : json) (path : string)
    (components result : list component) :
  find_components_rec n node path components = Ok result ->
  exists found, result = components ++ found /\ Forall name_passed_test found.
Proof.
  revert node path components result.
  induction n as [|n IH]; intros node path components result;
    cbn [find_components_rec]; [discriminate|].
  destruct node;
    try (intros H; inversion H; exists []; now rewrite app_nil_r).
  destruct (is_button_component fields) as [matched|e] eqn:Hm; cbn [exc_bind];
    [|discriminate].
  assert (Hown : exists own,
             (if matched then components ++ [component_info fields path]
              else components) = components ++ own
             /\ Forall name_passed_test own).
  { destruct matched.
    - exists [component_info fields path]. split; [reflexivity|].
      constructor; [now apply passed_test | constructor].
    - exists []. now rewrite app_nil_r. }
  destruct Hown as [own [-> Hown]].
  destruct (dict_get "children" fields) as [children|].
  - destruct (py_iter children) as [items|e]; cbn [exc_bind]; [|discriminate].
    intros Hloop.
    apply (for_each_invariant name_passed_test) in Hloop.
    + destruct Hloop as [f [-> Hf]]. exists (own ++ f).
      split; [now rewrite app_assoc|]. apply Forall_app. now split.
    + intros x acc r _ Hx. exact (IH _ _ _ _ Hx).
  - intros H. inversion H. now exists own.
Qed.

Lemma hashed_names_hashable (components : list component) (names : list string) :
  hashed_names components = Ok names ->
  Forall name_passed_test components ->
  Forall (fun c => exists s, c_name c = JStr s /\ contains "Button" s)
    components.
Proof.
  revert names. induction components as [|c components IH]; intros names;
    cbn [hashed_names]; [constructor|].
  destruct (hashed_name c) as [n|e] eqn:Hc; cbn [exc_bind]; [|discriminate].
  destruct (hashed_names components) as [ns|e]; cbn [exc_bind]; [|discriminate].
  intros _ Hall. inversion Hall as [|c' cs Hp Hrest]. subst.
  constructor; [|now apply (IH ns)].
  unfold hashed_name in Hc. unfold name_passed_test in Hp.
  destruct (c_name c); try contradiction; try discriminate. now exists s.
Qed.

(** ** Paths of the records, whatever the document *)

(** What a call appends: at most the record of the node itself, then
    records whose paths go on from the path of the call with a "/". *)
Lemma find_components_rec_paths (n : nat) (node : json) (path : string)
    (components result : list component) :
  find_components_rec n node path components = Ok result ->
  exists own below,
    result = components ++ own ++ below
    /\ (own = [] \/ own = own_record node path)
    /\ Forall (fun c => exists rest, c_path c = path +++ "/" +++ rest) below.
Proof.
  revert node path components result.
  induction n as [|n IH]; intros node path components result;
    cbn [find_components_rec]; [discriminate|].
  destruct node;
    try solve [intros H; inversion H; exists [], []; rewrite app_nil_r; auto].
  destruct (is_button_component fields) as [matched|e]; cbn [exc_bind];
    [|discriminate].
  set (own := if matched then [component_info fields path] else []).
  assert (Hown : (if matched then components ++ [component_info fields path]
                  else components) = components ++ own).
  { unfold own. destruct matched; [reflexivity | now rewrite app_nil_r]. }
  assert (Hown' : own = [] \/ own = own_record (JObj fields) path).
  { unfold own. destruct matched; [now right | now left]. }
  rewrite Hown. clear Hown.
  destruct (dict_get "children" fields) as [children|].
  - destruct (py_iter children) as [items|e]; cbn [exc_bind]; [|discriminate].
    intros Hloop.
    apply (for_each_invariant
             (fun c => exists rest, c_path c = path +++ "/" +++ rest))
      in Hloop.
    + destruct Hloop as [below [-> Hbelow]]. exists own, below.
      now rewrite app_assoc.
    + intros x acc r _ Hx.
      destruct (IH _ _ _ _ Hx) as [own' [below' [-> [Hown'' Hbelow']]]].
      exists (own' ++ below'). split; [reflexivity|].
      apply Forall_app. split.
      * destruct Hown'' as [->| ->]; [constructor|].
        destruct x; try constructor; [|constructor].
        cbn [component_info c_path]. eauto.
      * apply Forall_forall. intros c Hc.
        rewrite Forall_forall in Hbelow'. destruct (Hbelow' c Hc) as [rest ->].
        eexists. rewrite !append_assoc. reflexivity.
  - intros H. inversion H. exists own, []. rewrite app_nil_r. auto.
Qed.

(** C10. The path of a record is empty or begins with "/", and it is
    empty only in the record of the node the search started on.  The
    search returns on every document tree, and whenever it returns,
    its records have such paths. *)
Theorem path_empty_or_slash :
  (forall root,
      DocumentTree root ->
      exists found, find_components root "" [] = Ok found)
  /\ (forall root found,
        find_components root "" [] = Ok found ->
        Forall (fun c => c_path c = "" \/ exists rest, c_path c = "/" +++ rest)
          found
        /\ (forall c, In c found -> c_path c = "" ->
                      In c (own_record root ""))).
Proof.
  split.
  - intros root Htree. eexists.
    exact (find_components_records root "" [] Htree).
  - intros root found Hfind.
    apply find_components_rec_paths in Hfind.
    destruct Hfind as [own [below [-> [Hown Hbelow]]]]. cbn [app].
    assert (Hroot : Forall (fun c => c_path c = "") own).
    { destruct Hown as [->| ->]; [constructor|].
      destruct root; constructor; [reflexivity | constructor]. }
    split.
    + apply Forall_app. split.
      * apply Forall_forall. intros c Hc. left.
        rewrite Forall_forall in Hroot. now apply Hroot.
      * apply Forall_forall. intros c Hc. right.
        rewrite Forall_forall in Hbelow. exact (Hbelow c Hc).
    + intros c Hc Hpath. apply in_app_or in Hc. destruct Hc as [Hc|Hc].
      * destruct Hown as [->| ->]; [contradiction | exact Hc].
      * rewrite Forall_forall in Hbelow. destruct (Hbelow c Hc) as [rest Hr].
        rewrite Hr in Hpath. discriminate Hpath.
Qed.

(** C9. Every record has a name that is a string containing "Button";
    a record without a name, or with a null name, cannot arise.  This
    holds of the records the search returns on a document whose names
    are strings, and of the records [extract_button_tokens] returns on
    any document. *)
Theorem matched_name_is_button_string :
  (forall root path components,
      DocumentTree root ->
      exists found,
        find_components root path components = Ok (components ++ found)
        /\ Forall (fun c => exists s, c_name c = JStr s /\ contains "Button" s)
             found)
  /\ (forall w w' components,
        extract_button_tokens w = (Ok components, w') ->
        Forall (fun c => exists s, c_name c = JStr s /\ contains "Button" s)
          components).
Proof.
  split.
  - intros root path components Htree.
    exists (records path (walk [] root)). split.
    + exact (find_components_records root path components Htree).
    + apply records_named.
  - intros w w' components Hrun.
    destruct (extract_returns _ _ _ Hrun) as [document [names [Hfind [Hnames _]]]].
    apply find_components_rec_names in Hfind.
    destruct Hfind as [found [-> Hfound]].
    exact (hashed_names_hashable _ _ Hnames Hfound).
Qed.

(** * Further properties *)

(** ** The search can be moved *)

Lemma shift_shift (p q : string) (c : component) :
  shift p (shift q c) = shift (p +++ q) c.
Proof.
  unfold shift. cbn. now rewrite append_assoc.
Qed.

Lemma shift_component_info (d : dict) (path : string) :
  shift path (component_info d "") = component_info d path.
Proof.
  unfold shift, component_info. cbn. now rewrite append_nil_r.
Qed.

Lemma exc_map_map {A B C} (f : A -> B) (g : B -> C) (c : exc A) :
  exc_map g (exc_map f c) = exc_map (fun a => g (f a)) c.
Proof.
  destruct c; reflexivity.
Qed.

Lemma exc_map_ext {A B} (f g : A -> B) (c : exc A) :
  (forall a, f a = g a) -> exc_map f c = exc_map g c.
Proof.
  intros H. destruct c; cbn; [now rewrite H | reflexivity].
Qed.

(** Two loops whose bodies append the same records, up to [g], to
    whatever they are given. *)
Lemma for_each_relocate {A B : Type} (g : B -> B) (items : list A)
    (body1 body0 : A -> list B -> exc (list B)) :
  (forall x, In x items -> forall acc,
      body1 x acc = exc_map (fun f => acc ++ map g f) (body0 x [])) ->
  (forall x, In x items -> forall acc,
      body0 x acc = exc_map (fun f => acc ++ f) (body0 x [])) ->
  forall base acc0,
    for_each items body1 (base ++ map g acc0)
    = exc_map (fun found => base ++ map g found) (for_each items body0 acc0).
Proof.
  induction items as [|x items IH]; intros H1 H0 base acc0; cbn [for_each].
  - reflexivity.
  - rewrite (H1 x (or_introl eq_refl)), (H0 x (or_introl eq_refl) acc0).
    destruct (body0 x []) as [f|e]; cbn [exc_map exc_bind]; [|reflexivity].
    rewrite <- app_assoc, <- map_app.
    apply IH; intros y Hy; [apply H1 | apply H0]; now right.
Qed.

Lemma find_components_rec_relocates (n : nat) (node : json) (path : string)
    (components : list component) :
  find_components_rec n node path components
  = exc_map (fun found => components ++ map (shift path) found)
      (find_components_rec n node "" []).
Proof.
  revert node path components.
  induction n as [|n IH]; intros node path components; [reflexivity|].
  destruct node; try (cbn; now rewrite app_nil_r).
  cbn [find_components_rec].
  destruct (is_button_component fields) as [matched|e]; cbn [exc_bind exc_map];
    [|reflexivity].
  set (own := if matched then [component_info fields ""] else []).
  assert (Hown1 : (if matched then components ++ [component_info fields path]
                   else components) = components ++ map (shift path) own).
  { unfold own. destruct matched; cbn [map].
    - now rewrite shift_component_info.
    - now rewrite app_nil_r. }
  assert (Hown0 : (if matched then [] ++ [component_info fields ""] else [])
                  = own).
  { unfold own. destruct matched; reflexivity. }
  rewrite Hown1, Hown0. clear Hown1 Hown0.
  destruct (dict_get "children" fields) as [children|]; [|reflexivity].
  destruct (py_iter children) as [items|e]; cbn [exc_bind exc_map];
    [|reflexivity].
  cbn [String.append].
  set (segment := format_value (dict_get_or "name" fields (JStr "unnamed"))).
  apply for_each_relocate.
  - intros x _ acc.
    rewrite (IH x (path +++ String "/" segment) acc).
    rewrite (IH x (String "/" segment) []), exc_map_map. cbn [app].
    apply exc_map_ext. intros f. f_equal. rewrite map_map.
    apply map_ext. intros c. now rewrite shift_shift.
  - intros x _ acc.
    rewrite (IH x (String "/" segment) acc).
    rewrite (IH x (String "/" segment) []), exc_map_map. reflexivity.
Qed.

(** X1. The search does the same thing wherever it is started: run with
    a path and a list, it raises what the run with the empty path and
    the empty list raises, or returns the list followed by the records of
    that run with the path put before theirs. *)
Theorem find_components_relocates (node : json) (path : string)
    (components : list component) :
  find_components node path components
  = exc_map (fun found => components ++ map (shift path) found)
      (find_components node "" []).
Proof.
  apply find_components_rec_relocates.
Qed.

(** ** When the search raises *)

Lemma returns_anywhere (node : json) (path : string)
    (components : list component) :
  (exists r, find_components node path components = Ok r)
  <-> (exists r, find_components node "" [] = Ok r).
Proof.
  unfold find_components.
  rewrite (find_components_rec_relocates _ node path components).
  destruct (find_components_rec _ node "" []) as [f|e]; cbn [exc_map].
  - split; eauto.
  - split; intros [r H]; discriminate H.
Qed.

Lemma test_returns (d : dict) :
  (exists b, is_button_component d = Ok b)
  <-> negb (py_eq_str (dict_get_or "type" d JNull) "COMPONENT")
      || iterable (dict_get_or "name" d (JStr "")) = true.
Proof.
  unfold is_button_component.
  destruct (py_eq_str _ "COMPONENT"); cbn [negb orb].
  - destruct (dict_get_or "name" d (JStr "")); cbn [py_in iterable];
      split; eauto; try discriminate; intros [b' H]; discriminate H.
  - split; eauto.
Qed.

Lemma py_iter_returns (v : json) :
  (exists items, py_iter v = Ok items) <-> iterable v = true.
Proof.
  destruct v; cbn [py_iter iterable]; split; eauto; try discriminate;
    intros [items H]; discriminate H.
Qed.

Lemma py_iter_items (children : json) (items : list json) :
  py_iter children = Ok items ->
  children = JArr items
  \/ (Forall (fun x => is_dict x = false) items
      /\ forall l, children <> JArr l).
Proof.
  destruct children; cbn [py_iter]; intros H; inversion H; subst.
  - right. split; [|discriminate]. apply Forall_forall. intros x Hx.
    apply in_map_iff in Hx. now destruct Hx as [c [<- _]].
  - now left.
  - right. split; [|discriminate]. apply Forall_forall. intros x Hx.
    apply in_map_iff in Hx. now destruct Hx as [kv [<- _]].
Qed.

Lemma for_each_returns {A S : Type} (items : list A) (body : A -> S -> exc S) :
  (forall x, In x items -> forall s, exists s', body x s = Ok s') ->
  forall s, exists s', for_each items body s = Ok s'.
Proof.
  induction items as [|x items IH]; intros H s; cbn [for_each]; [eauto|].
  destruct (H x (or_introl eq_refl) s) as [s' ->]. cbn [exc_bind].
  apply IH. intros y Hy. apply H. now right.
Qed.

Lemma for_each_returned {A S : Type} (items : list A) (body : A -> S -> exc S)
    (s r : S) :
  for_each items body s = Ok r ->
  forall x, In x items -> exists s0 s1, body x s0 = Ok s1.
Proof.
  revert s. induction items as [|y items IH]; intros s H x Hx;
    cbn [for_each] in H; [contradiction|].
  destruct (body y s) as [s'|e] eqn:Hy; cbn [exc_bind] in H; [|discriminate].
  destruct Hx as [<-|Hx]; [eauto | exact (IH _ H x Hx)].
Qed.

Lemma find_components_returns (n : nat) (node : json) :
  json_height node < n ->
  (exists r, find_components node "" [] = Ok r)
  <-> forallb searchable (preorder node) = true.
Proof.
  revert node. induction n as [|n IH]; intros node Hn; [lia|].
  rewrite find_components_eq. destruct node; try solve [cbn; split; eauto].
  rewrite preorder_unfold. cbn [forallb]. unfold searchable at 1.
  rewrite !andb_true_iff, <- test_returns.
  split.
  - intros [r H].
    destruct (is_button_component fields) as [matched|e]; cbn [exc_bind] in H;
      [|discriminate].
    split; [split; [eauto|]|]; cbn [find_in_children] in H;
      unfold children_of;
      destruct (dict_get "children" fields) as [children|] eqn:Hget;
      try reflexivity.
    + apply py_iter_returns. destruct (py_iter children); [eauto|discriminate].
    + destruct (py_iter children) as [items|e] eqn:Hiter; cbn [exc_bind] in H;
        [|discriminate].
      destruct (py_iter_items _ _ Hiter) as [->|[_ Hna]].
      * apply forallb_forall. intros d Hd. apply in_flat_map in Hd.
        destruct Hd as [x [Hx Hd]].
        destruct (for_each_returned _ _ _ _ H x Hx) as [s0 [s1 Hret]].
        assert (Hx' : forallb searchable (preorder x) = true).
        { apply IH.
          - pose proof (child_height _ _ _ _ Hget Hiter Hx). lia.
          - pose proof (fun p => proj1 (returns_anywhere x p s0)) as Hto.
            eapply Hto. exists s1. exact Hret. }
        rewrite forallb_forall in Hx'. now apply Hx'.
      * destruct children; try reflexivity. now contradiction (Hna items0).
  - intros [[[matched Htest] Hch] Hall]. rewrite Htest. cbn [exc_bind].
    cbn [find_in_children]. unfold children_of in Hall.
    destruct (dict_get "children" fields) as [children|] eqn:Hget; [|eauto].
    apply py_iter_returns in Hch. destruct Hch as [items Hiter].
    rewrite Hiter. cbn [exc_bind]. apply for_each_returns.
    intros x Hx acc. apply returns_anywhere.
    destruct (py_iter_items _ _ Hiter) as [->|[Hnd _]].
    + apply IH.
      * pose proof (child_height _ _ _ _ Hget Hiter Hx). lia.
      * apply forallb_forall. intros d Hd.
        rewrite forallb_forall in Hall. apply Hall.
        apply in_flat_map. eauto.
    + rewrite Forall_forall in Hnd. specialize (Hnd x Hx).
      rewrite find_components_eq. destruct x; eauto. discriminate Hnd.
Qed.


Lemma find_components_rec_raises (n : nat) (node : json) (path : string)
    (components : list component) (e : exn) :
  json_height node < n ->
  find_components_rec n node path components = Raise e ->
  exists message, e = Exception "TypeError" message.
Proof.
  revert node path components.
  induction n as [|n IH]; intros node path components Hn; [lia|].
  destruct node; try discriminate. cbn [find_components_rec].
  destruct (is_button_component fields) as [matched|e'] eqn:Htest;
    cbn [exc_bind].
  - destruct (dict_get "children" fields) as [children|] eqn:Hget;
      [|discriminate].
    destruct (py_iter children) as [items|e'] eqn:Hiter; cbn [exc_bind].
    + generalize (if matched then components ++ [component_info fields path]
                  else components).
      assert (Hitems : forall x, In x items -> json_height x < n).
      { intros x Hx. pose proof (child_height _ _ _ _ Hget Hiter Hx). lia. }
      clear Hiter. induction items as [|x items IHitems]; intros acc;
        cbn [for_each]; [discriminate|].
      destruct (find_components_rec n x _ acc) as [acc'|e'] eqn:Hx;
        cbn [exc_bind].
      * apply IHitems. intros y Hy. apply Hitems. now right.
      * intros H. inversion H. subst e'.
        exact (IH _ _ _ (Hitems x (or_introl eq_refl)) Hx).
    + intros H. inversion H. subst e'.
      destruct children; cbn [py_iter] in Hiter; try discriminate;
        inversion Hiter; eauto.
  - intros H. inversion H. subst e'.
    unfold is_button_component in Htest.
    destruct (py_eq_str _ "COMPONENT"); [|discriminate].
    destruct (dict_get_or "name" fields (JStr "")); cbn [py_in] in Htest;
      try discriminate; inversion Htest; eauto.
Qed.


(** X4. Children given as a string or a dict are iterated over without
    error and yield no record: the search returns the list with at most
    the node's own record added. *)
Theorem children_not_a_list (d : dict) (children : json) (path : string)
    (components : list component) :
  dict_get "children" d = Some children ->
  (exists s, children = JStr s) \/ (exists fields, children = JObj fields) ->
  find_components (JObj d) path components
  = (matched <- is_button_component d ;;
     Ok (if matched then components ++ [component_info d path]
         else components)).
Proof.
  intros Hget Hkind. rewrite find_components_eq.
  destruct (is_button_component d) as [matched|e]; cbn [exc_bind];
    [|reflexivity].
  cbn [find_in_children]. rewrite Hget.
  assert (Hiter : exists items,
             py_iter children = Ok items
             /\ Forall (fun x => is_dict x = false) items).
  { destruct Hkind as [[s ->]|[fields ->]]; cbn [py_iter]; eexists;
      (split; [reflexivity|]); apply Forall_forall; intros x Hx;
      apply in_map_iff in Hx; now destruct Hx as [c [<- _]]. }
  destruct Hiter as [items [-> Hnd]]. cbn [exc_bind].
  generalize (if matched then components ++ [component_info d path]
              else components).
  induction Hnd as [|x items Hx _ IH]; intros acc; cbn [for_each];
    [reflexivity|].
  rewrite find_components_eq. destruct x; try discriminate Hx; cbn [exc_bind];
    apply IH.
Qed.

(** ** The keys of the properties *)

(** X5. The keys of the properties are the categories whose source field
    is on the node, in the fixed order fills, strokes, effects,
    cornerRadius, padding, itemSpacing, layoutMode, text, textStyle, each
    at most once: this is the order [json.dump] writes them in. *)
Theorem properties_key_order (d : dict) :
  map fst (extract_properties d) = filter (category_present d) categories
  /\ NoDup (map fst (extract_properties d)).
Proof.
  clear py_str encode_str json_load.
  assert (Hkeys : map fst (extract_properties d)
                  = filter (category_present d) categories).
  { unfold extract_properties, copy_if_present, categories.
    cbn [filter]. unfold category_present, category_source, has_key.
    cbn [String.eqb Ascii.eqb Bool.eqb].
    destruct (dict_get "fills" d), (dict_get "strokes" d),
      (dict_get "effects" d), (dict_get "cornerRadius" d),
      (dict_get "paddingLeft" d), (dict_get "itemSpacing" d),
      (dict_get "layoutMode" d), (dict_get "characters" d),
      (dict_get "style" d); reflexivity. }
  split; [exact Hkeys|]. rewrite Hkeys. apply NoDup_filter.
  unfold categories.
  repeat (constructor; [cbn [In]; intros H;
                        repeat (destruct H as [H|H]; [discriminate H|]);
                        exact H|]).
  constructor.
Qed.

(** ** Every way a run ends *)



(** X7. When the input parses to something that is not an object (a
    list, a string, a number, null), [data.get] raises: the run prints
    the AttributeError after the three progress lines, exits with status
    1 and leaves the output file as it was. *)
Theorem top_level_not_an_object (w : world) (text : string) (data : json) :
  input_file w = Some text ->
  json_load text = Ok data ->
  is_dict data = false ->
  main w
  = ({| input_file := Some text;
        output_file := output_file w;
        console := console w
                   ++ ["🔍 Analizando archivo de Figma...";
                       "✅ Archivo cargado";
                       "🔎 Buscando componentes Button...";
                       "❌ Error: '" +++ py_type_name data
                       +++ "' object has no attribute 'get'"] |}, 1).
Proof.
  intros Hin Hload Hnd. unfold main. rewrite Hin.
  unfold extract_button_tokens, script_bind, load_input, lift.
  cbn [print input_file output_file console]. rewrite Hin, Hload.
  destruct data; try discriminate Hnd;
    cbn [py_get_method print input_file output_file console exn_message];
    now rewrite <- !app_assoc.
Qed.

(** X8. When some object of the document cannot be got through, the run
    prints a TypeError after the three progress lines, exits with status
    1 and leaves the output file as it was: no partial result is
    written. *)
Theorem unsearchable_document_reported (w : world) (text : string)
    (data : dict) :
  input_file w = Some text ->
  json_load text = Ok (JObj data) ->
  forallb searchable (preorder (dict_get_or "document" data (JObj [])))
  = false ->
  exists message,
    find_components (dict_get_or "document" data (JObj [])) "" []
    = Raise (Exception "TypeError" message)
    /\ main w
       = ({| input_file := Some text;
             output_file := output_file w;
             console := console w
                        ++ ["🔍 Analizando archivo de Figma...";
                            "✅ Archivo cargado";
                            "🔎 Buscando componentes Button...";
                            "❌ Error: " +++ message] |}, 1).
Proof.
  intros Hin Hload Hbad.
  set (document := dict_get_or "document" data (JObj [])) in *.
  destruct (find_components document "" []) as [r|e] eqn:Hfind.
  - assert (Hok : forallb searchable (preorder document) = true).
    { apply (find_components_returns (S (json_height document)) document
               (Nat.lt_succ_diag_r _)).
      eauto. }
    rewrite Hok in Hbad. discriminate Hbad.
  - destruct (find_components_rec_raises _ _ _ _ _ (Nat.lt_succ_diag_r _) Hfind)
      as [message ->].
    exists message. split; [reflexivity|].
    unfold main. rewrite Hin.
    unfold extract_button_tokens, script_bind, load_input, lift.
    cbn [print input_file output_file console]. rewrite Hin, Hload.
    cbn [py_get_method]. fold document. rewrite Hfind.
    cbn [print input_file output_file console exn_message].
    now rewrite <- !app_assoc.
Qed.

(** X9. When the input is an object whose "document" is there but is not
    an object (null, a list, a string, a number), the search finds
    nothing and the run succeeds and writes the empty array. *)
Theorem document_not_an_object (w : world) (text : string) (data : dict)
    (document : json) :
  input_file w = Some text ->
  json_load text = Ok (JObj data) ->
  dict_get "document" data = Some document ->
  is_dict document = false ->
  main w
  = ({| input_file := Some text;
        output_file := Some "[]";
        console := console w
                   ++ ["🔍 Analizando archivo de Figma...";
                       "✅ Archivo cargado";
                       "🔎 Buscando componentes Button...";
                       "✅ Encontrados 0 componentes Button";
                       nl +++ "📋 Variantes encontradas (0):";
                       nl +++ "💾 Primeros componentes guardados en: "
                       +++ ".figma/cache/button-components.json";
                       nl +++ "✅ Extracción completada!"] |}, 0).
Proof.
  intros Hin Hload Hdoc Hnd.
  assert (Hget : py_get_method (JObj data) "document" (JObj []) = Ok document).
  { cbn [py_get_method]. unfold dict_get_or. now rewrite Hdoc. }
  assert (Hfind : find_components document "" [] = Ok []).
  { rewrite find_components_eq. destruct document; try reflexivity.
    discriminate Hnd. }
  unfold main. rewrite Hin.
  rewrite (extract_success w text (JObj data) document [] []
             Hin Hload Hget Hfind eq_refl).
  cbn [print input_file output_file console]. f_equal.
  unfold summary_lines. cbn. now rewrite <- app_assoc.
Qed.

Lemma hashed_names_raises (components : list component) (v : json) :
  first_unhashable components = Some v ->
  hashed_names components
  = Raise (Exception "TypeError"
             ("unhashable type: '" +++ py_type_name v +++ "'")).
Proof.
  induction components as [|c components IH]; cbn [first_unhashable hashed_names];
    [discriminate|].
  unfold hashed_name.
  destruct (c_name c) eqn:Hname; cbn [exc_bind];
    try (intros H; rewrite (IH H); reflexivity);
    intros H; inversion H; reflexivity.
Qed.

(** X10. When the search returns a record whose name is a list or a
    dict, building the set of names raises: the run prints the number of
    matches, then the TypeError naming the type of the first such name,
    exits with status 1 and leaves the output file as it was. *)
Theorem unhashable_name_reported (w : world) (text : string) (data : dict)
    (components : list component) (v : json) :
  input_file w = Some text ->
  json_load text = Ok (JObj data) ->
  find_components (dict_get_or "document" data (JObj [])) "" [] = Ok components ->
  first_unhashable components = Some v ->
  main w
  = ({| input_file := Some text;
        output_file := output_file w;
        console := console w
                   ++ ["🔍 Analizando archivo de Figma...";
                       "✅ Archivo cargado";
                       "🔎 Buscando componentes Button...";
                       "✅ Encontrados " +++ nat_str (length components)
                       +++ " componentes Button";
                       "❌ Error: unhashable type: '" +++ py_type_name v
                       +++ "'"] |}, 1).
Proof.
  intros Hin Hload Hfind Hbad. unfold main. rewrite Hin.
  unfold extract_button_tokens, script_bind, load_input, lift.
  cbn [print input_file output_file console]. rewrite Hin, Hload.
  cbn [py_get_method]. rewrite Hfind, (hashed_names_raises _ _ Hbad).
  cbn [print input_file output_file console exn_message].
  now rewrite <- !app_assoc.
Qed.

(** ** The summary *)

Lemma insert_sorted_perm (s : string) (l : list string) :
  Permutation (insert_sorted s l) (s :: l).
Proof.
  induction l as [|x l IH]; cbn [insert_sorted]; [reflexivity|].
  destruct (String.leb s x); [reflexivity|].
  rewrite IH. apply perm_swap.
Qed.

Lemma sorted_perm (l : list string) : Permutation (sorted l) l.
Proof.
  unfold sorted. induction l as [|x l IH]; cbn [fold_right]; [reflexivity|].
  rewrite insert_sorted_perm. now constructor.
Qed.

Lemma leb_false_flip (a b : string) :
  String.leb a b = false -> String.leb b a = true.
Proof.
  intros H. destruct (String.leb_total a b) as [Hab|Hba]; congruence.
Qed.

Lemma insert_sorted_ascending (s : string) (l : list string) :
  ascending l -> ascending (insert_sorted s l).
Proof.
  induction l as [|x l IH]; cbn [insert_sorted]; intros Hl.
  - cbn. auto.
  - destruct (String.leb s x) eqn:Hsx.
    + cbn [ascending]. auto.
    + destruct Hl as [Hhead Hrest]. specialize (IH Hrest).
      cbn [ascending]. split; [|exact IH].
      destruct l as [|y l]; cbn [insert_sorted] in *.
      * now apply leb_false_flip.
      * destruct (String.leb s y); [now apply leb_false_flip | exact Hhead].
Qed.

Lemma sorted_ascending (l : list string) : ascending (sorted l).
Proof.
  unfold sorted. induction l as [|x l IH]; cbn [fold_right]; [exact I|].
  now apply insert_sorted_ascending.
Qed.

Lemma list_sum_perm (l l' : list nat) :
  Permutation l l' -> list_sum l = list_sum l'.
Proof.
  unfold list_sum. induction 1; cbn [fold_right]; lia.
Qed.

Lemma indicator_sum (a : string) (U : list string) :
  NoDup U -> In a U ->
  list_sum (map (fun u => if string_dec a u then 1 else 0) U) = 1.
Proof.
  induction 1 as [|x U Hx _ IH]; cbn [In map list_sum fold_right]; [contradiction|].
  intros [->|Ha].
  - destruct (string_dec a a); [|congruence].
    assert (Hzero : list_sum (map (fun u => if string_dec a u then 1 else 0) U)
                    = 0).
    { clear IH. induction U as [|y U IHU]; cbn [map list_sum fold_right]; [reflexivity|].
      destruct (string_dec a y) as [->|_].
      - contradiction Hx. now left.
      - apply IHU. intros H. apply Hx. now right. }
    unfold list_sum in Hzero. lia.
  - destruct (string_dec a x) as [->|_]; [contradiction|]. now apply IH.
Qed.

(** Over a duplicate-free list that holds every element of [l], the
    numbers of occurrences add up to the length of [l]. *)
Lemma count_sum (U l : list string) :
  NoDup U -> (forall x, In x l -> In x U) ->
  list_sum (map (count_occ string_dec l) U) = length l.
Proof.
  intros HU. induction l as [|a l IH]; intros Hin.
  - cbn [count_occ length]. clear HU Hin.
    induction U as [|u U IHU]; cbn; auto.
  - assert (Hsplit : forall V,
               list_sum (map (count_occ string_dec (a :: l)) V)
               = list_sum (map (count_occ string_dec l) V)
                 + list_sum (map (fun u => if string_dec a u then 1 else 0) V)).
    { induction V as [|v V IHV]; cbn [map list_sum fold_right count_occ];
        [reflexivity|].
      unfold list_sum in IHV. cbn [count_occ] in IHV. rewrite IHV.
      destruct (string_dec a v); unfold list_sum; lia. }
    rewrite Hsplit, IH, indicator_sum; cbn [length]; auto; try lia.
    + apply Hin. now left.
    + intros x Hx. apply Hin. now right.
Qed.

(** The names [set] is given are the names of the records, in order. *)
Lemma hashed_names_text (components : list component) (names : list string) :
  hashed_names components = Ok names ->
  Forall (fun c => exists s, c_name c = JStr s /\ contains "Button" s)
    components ->
  map c_name components = map JStr names.
Proof.
  revert names. induction components as [|c components IH]; intros names;
    cbn [hashed_names].
  - intros H _. now inversion H.
  - destruct (hashed_name c) as [n|e] eqn:Hc; cbn [exc_bind]; [|discriminate].
    destruct (hashed_names components) as [ns|e]; cbn [exc_bind];
      [|discriminate].
    intros H Hall. inversion H. subst names.
    inversion Hall as [|c' cs [s [Hs _]] Hrest]. subst.
    cbn [map]. rewrite (IH ns eq_refl Hrest). f_equal.
    unfold hashed_name in Hc. rewrite Hs in Hc. cbn in Hc. rewrite Hs.
    now inversion Hc.
Qed.

Lemma count_name_occ (name : string) (components : list component)
    (names : list string) :
  map c_name components = map JStr names ->
  count_name name components = count_occ string_dec names name.
Proof.
  unfold count_name. revert names.
  induction components as [|c components IH]; intros [|n names] H;
    cbn [map] in H; try discriminate H; [reflexivity|].
  injection H as Hc Hrest. cbn [filter count_occ]. rewrite Hc.
  cbn [py_eq_str]. specialize (IH names Hrest).
  destruct (string_dec n name) as [->|Hne].
  - rewrite String.eqb_refl. cbn [length]. now rewrite IH.
  - apply String.eqb_neq in Hne. now rewrite Hne.
Qed.

(** X11. In the summary of a run that succeeds, the names listed are the
    distinct names of the matches, in ascending order, each with the
    number of matches that have it, which is at least one; and these
    numbers add up to the number of matches printed. *)
Theorem summary_counts (w w' : world) (components : list component) :
  extract_button_tokens w = (Ok components, w') ->
  exists names,
    console w' = console w ++ summary_lines components names
    /\ let listed := sorted (nodup string_dec names) in
       NoDup listed
       /\ ascending listed
       /\ (forall n, In n listed
                     <-> exists c, In c components /\ c_name c = JStr n)
       /\ (forall n, In n listed -> 1 <= count_name n components)
       /\ list_sum (map (fun n => count_name n components) listed)
          = length components.
Proof.
  intros Hrun.
  destruct (extract_returns _ _ _ Hrun) as [document [names [Hfind [Hnames _]]]].
  pose proof Hfind as Hfound. apply find_components_rec_names in Hfound.
  destruct Hfound as [found [Heq Hpassed]]. cbn [app] in Heq. subst found.
  pose proof (hashed_names_hashable _ _ Hnames Hpassed) as Hstr.
  pose proof (hashed_names_text _ _ Hnames Hstr) as Htext.
  exists names. split.
  { revert Hrun.
    unfold extract_button_tokens, script_bind, load_input, lift.
    cbn [print input_file output_file console].
    destruct (input_file w); [|discriminate].
    destruct (json_load s) as [data|]; [|discriminate].
    destruct (py_get_method data "document" (JObj [])) as [doc|]; [|discriminate].
    destruct (find_components doc "" []) as [found|]; [|discriminate].
    destruct (hashed_names found) as [names'|] eqn:Hn'; [|discriminate].
    rewrite print_all_run. unfold write_output, script_ret, summary_lines.
    cbn [print input_file output_file console].
    intros H. injection H as <- <-.
    rewrite Hn' in Hnames. injection Hnames as ->.
    cbn [console]. now rewrite <- !app_assoc. }
  cbn zeta.
  pose proof (sorted_perm (nodup string_dec names)) as Hperm.
  assert (Hin : forall n, In n (sorted (nodup string_dec names)) <-> In n names).
  { intros n. split; intros H.
    - apply (Permutation_in _ Hperm) in H. now apply nodup_In in H.
    - apply (Permutation_in _ (Permutation_sym Hperm)). now apply nodup_In. }
  assert (Hcount : forall n, count_name n components
                             = count_occ string_dec names n).
  { intros n. now apply count_name_occ. }
  split; [|split; [|split; [|split]]].
  - apply (Permutation_NoDup (Permutation_sym Hperm)). apply NoDup_nodup.
  - apply sorted_ascending.
  - intros n. rewrite Hin. split.
    + intros Hn. apply (in_map JStr) in Hn. rewrite <- Htext in Hn.
      apply in_map_iff in Hn. destruct Hn as [c [Hc Hcin]]. eauto.
    + intros [c [Hc Hname]]. apply (in_map c_name) in Hc.
      rewrite Htext, Hname in Hc. apply in_map_iff in Hc.
      destruct Hc as [n' [Heq Hn']]. now inversion Heq; subst.
  - intros n Hn. rewrite Hcount. apply Hin in Hn.
    apply (count_occ_In string_dec) in Hn. lia.
  - rewrite (map_ext _ (count_occ string_dec names) Hcount).
    rewrite (list_sum_perm _ _ (Permutation_map _ Hperm)).
    rewrite count_sum.
    + rewrite <- (length_map JStr), <- Htext. apply length_map.
    + apply NoDup_nodup.
    + intros x Hx. now apply nodup_In.
Qed.

End Script.

(** * The properties on the sample inputs *)

Ltac prove_tree :=
  first
    [ solve [apply tree_other; reflexivity]
    | solve [apply tree_leaf; [exact I | reflexivity]]
    | eapply tree_parent;
      [ exact I | reflexivity | reflexivity
      | repeat (constructor; [prove_tree|]); constructor ] ].

Lemma sample_document_tree : DocumentTree sample_document.
Proof.
  prove_tree.
Qed.


Lemma button_primary_qualifies : qualifies (JObj button_primary_fields).
Proof.
  apply qualifies_dict. reflexivity.
Qed.

(** Whatever the name is, a node that passes the test of line 17 has a
    name, and it is not null. *)
Lemma matched_name_present (d : dict) :
  is_button_component d = Ok true ->
  exists v, dict_get "name" d = Some v /\ v <> JNull.
Proof.
  unfold is_button_component, dict_get_or.
  destruct (py_eq_str _ "COMPONENT"); [|discriminate].
  destruct (dict_get "name" d) as [v|]; [|discriminate].
  intros H. exists v. split; [reflexivity|]. intros ->. discriminate H.
Qed.

Lemma match_rule_witness :
  node_name_typed (JObj button_primary_fields)
  /\ find_components sample_str (JObj button_primary_fields) "/Doc/Page" []
     = find_in_children sample_str (JObj button_primary_fields) "/Doc/Page"
         [component_info button_primary_fields "/Doc/Page"].
Proof.
  split; [exact I|].
  destruct (match_rule sample_str (JObj button_primary_fields) "/Doc/Page" [] I)
    as [Hyes _].
  exact (Hyes button_primary_qualifies).
Defined.

Lemma path_of_match_witness :
  DocumentTree sample_document
  /\ find_components sample_str sample_document "" []
     = Ok [component_info button_primary_fields "/Doc/Page";
           component_info nested_button_fields "/Doc/Page";
           component_info icon_fields "/Doc/Page/Button/Primary"].
Proof.
  split; [exact sample_document_tree|].
  exact (proj1 (path_of_match sample_str sample_document sample_document_tree)).
Defined.

(** C2 as stated fails: the paths of the sample document's matches begin
    with "/", the names of their ancestors joined by "/" do not. *)
Lemma joined_names_counterexample :
  DocumentTree sample_document
  /\ (exists c rest,
        find_components sample_str sample_document "" [] = Ok (c :: rest)
        /\ c_path c = "/Doc/Page")
  /\ joined_names [sample_document_fields; sample_page_fields] = "Doc/Page"
  /\ find_components sample_str sample_document "" []
     <> Ok (map (fun v => component_info (snd v) (joined_names (fst v)))
              (filter (fun v => qualifiesb (snd v)) (walk [] sample_document))).
Proof.
  split; [exact sample_document_tree|]. split; [|split].
  - eexists. eexists. split; reflexivity.
  - reflexivity.
  - vm_compute. intros H. discriminate H.
Qed.

Lemma properties_follow_presence_witness :
  dict_get "padding"
    (c_properties (component_info button_primary_fields "/Doc/Page"))
  = Some (JObj [("left", JInt 8); ("right", JInt 8);
                ("top", JNull); ("bottom", JNull)]).
Proof.
  apply (properties_follow_presence button_primary_fields "/Doc/Page");
    reflexivity.
Defined.


(** Twelve matches, ten of them written. *)
Example crowded_run :
  find_components sample_str crowded_document "" []
  = Ok (repeat (component_info button_primary_fields "/unnamed") 12)
  /\ main sample_str sample_quote sample_load crowded_world
     = ({| input_file := Some "crowded";
           output_file :=
             Some (json_dumps sample_quote 0
                     (JArr (repeat (component_json
                                      (component_info button_primary_fields
                                         "/unnamed")) 10)));
           console :=
             ["🔍 Analizando archivo de Figma..."; "✅ Archivo cargado";
              "🔎 Buscando componentes Button...";
              "✅ Encontrados 12 componentes Button";
              nl +++ "📋 Variantes encontradas (1):";
              "   - ButtonPrimary (12 instancias)";
              nl +++ "💾 Primeros componentes guardados en: "
              +++ ".figma/cache/button-components.json";
              nl +++ "✅ Extracción completada!"] |}, 0).
Proof.
  split; vm_compute; reflexivity.
Qed.

(** A name that is a list passes the test of line 17, and [set] then
    rejects it: the run fails and writes nothing. *)
Example list_name_run :
  let node := JObj [("type", JStr "COMPONENT"); ("name", JArr [JStr "Button"])] in
  let load := fun _ : string => Ok (JObj [("document", node)]) in
  find_components sample_str node "" []
  = Ok [{| c_name := JArr [JStr "Button"]; c_id := JNull; c_path := "";
           c_properties := [] |}]
  /\ main sample_str sample_quote load sample_world
     = ({| input_file := Some "sample";
           output_file := None;
           console :=
             ["🔍 Analizando archivo de Figma..."; "✅ Archivo cargado";
              "🔎 Buscando componentes Button...";
              "✅ Encontrados 1 componentes Button";
              "❌ Error: unhashable type: 'list'"] |}, 1).
Proof.
  split; vm_compute; reflexivity.
Qed.

(** A [children] field that cannot be iterated over makes the search
    raise. *)
Example children_not_iterable :
  find_components sample_str (JObj [("children", JInt 5)]) "" []
  = Raise (Exception "TypeError" "'int' object is not iterable").
Proof.
  reflexivity.
Qed.

Lemma traversal_order_witness :
  exists found,
    find_components sample_str sample_document "" [] = Ok ([] ++ found)
    /\ Forall2 (fun c d => exists p, c = component_info d p)
         found (filter qualifiesb (preorder sample_document)).
Proof.
  exact (proj1 (traversal_order sample_str sample_document "" []
                  sample_document_tree)).
Defined.

Lemma failed_run_keeps_output_witness :
  main sample_str sample_quote sample_load bare_world
  = ({| input_file := None;
        output_file := Some "old";
        console := ["❌ No se encontró el archivo file-full.json";
                    "   Ejecuta primero el comando para descargar el archivo"]
     |}, 1)
  /\ main sample_str sample_quote sample_load broken_world
     = ({| input_file := Some "not json";
           output_file := Some "old";
           console := ["🔍 Analizando archivo de Figma...";
                       "❌ Error: Expecting value: line 1 column 1 (char 0)"]
        |}, 1).
Proof.
  split.
  - apply (proj1 (failed_run_keeps_output sample_str sample_quote sample_load
                    bare_world)).
    reflexivity.
  - apply (proj2 (failed_run_keeps_output sample_str sample_quote sample_load
                    broken_world)
             "not json"
             (Exception "JSONDecodeError"
                "Expecting value: line 1 column 1 (char 0)")).
    + reflexivity.
    + reflexivity.
Defined.

Lemma missing_document_key_witness :
  find_components sample_str (JObj []) "" [] = Ok []
  /\ output_file (fst (main sample_str sample_quote sample_load keyless_world))
     = Some "[]"
  /\ snd (main sample_str sample_quote sample_load keyless_world) = 0.
Proof.
  destruct (missing_document_key sample_str sample_quote sample_load
              keyless_world "empty" [("name", JStr "Untitled")]
              eq_refl eq_refl eq_refl) as [Hfind Hmain].
  split; [exact Hfind|]. rewrite Hmain. split; reflexivity.
Defined.

Lemma extraction_is_idempotent_witness :
  output_file
    (fst (main sample_str sample_quote sample_load
            (fst (main sample_str sample_quote sample_load sample_world))))
  = output_file (fst (main sample_str sample_quote sample_load sample_world)).
Proof.
  exact (proj1 (proj2 (extraction_is_idempotent sample_str sample_quote
                         sample_load sample_world))).
Defined.

Lemma matched_name_is_button_string_witness :
  DocumentTree sample_document
  /\ exists found,
       find_components sample_str sample_document "" [] = Ok ([] ++ found)
       /\ Forall (fun c => exists s, c_name c = JStr s /\ contains "Button" s)
            found.
Proof.
  split; [exact sample_document_tree|].
  exact (proj1 (matched_name_is_button_string sample_str sample_quote
                  sample_load)
           sample_document "" [] sample_document_tree).
Defined.

Lemma path_empty_or_slash_witness :
  DocumentTree sample_document
  /\ exists found, find_components sample_str sample_document "" [] = Ok found.
Proof.
  split; [exact sample_document_tree|].
  exact (proj1 (path_empty_or_slash sample_str) sample_document
           sample_document_tree).
Defined.

(** * The further properties on the sample inputs *)


Lemma children_not_a_list_witness :
  find_components sample_str (JObj text_children_fields) "/Doc" []
  = (matched <- is_button_component text_children_fields ;;
     Ok (if matched then [] ++ [component_info text_children_fields "/Doc"]
         else [])).
Proof.
  apply (children_not_a_list sample_str text_children_fields (JStr "ab")).
  - reflexivity.
  - left. now exists "ab".
Defined.

Lemma top_level_not_an_object_witness :
  main sample_str sample_quote (constant_load (JArr [])) any_world
  = ({| input_file := Some "...";
        output_file := Some "old";
        console := ["$"; "🔍 Analizando archivo de Figma...";
                    "✅ Archivo cargado";
                    "🔎 Buscando componentes Button...";
                    "❌ Error: 'list' object has no attribute 'get'"] |}, 1).
Proof.
  apply (top_level_not_an_object sample_str sample_quote
           (constant_load (JArr [])) any_world "..." (JArr []));
    reflexivity.
Defined.

Lemma unsearchable_document_reported_witness :
  exists message,
    find_components sample_str (JObj bad_children_fields) "" []
    = Raise (Exception "TypeError" message)
    /\ main sample_str sample_quote
         (constant_load (JObj [("document", JObj bad_children_fields)]))
         any_world
       = ({| input_file := Some "...";
             output_file := Some "old";
             console := ["$"]
                        ++ ["🔍 Analizando archivo de Figma...";
                            "✅ Archivo cargado";
                            "🔎 Buscando componentes Button...";
                            "❌ Error: " +++ message] |}, 1).
Proof.
  apply (unsearchable_document_reported sample_str sample_quote
           (constant_load (JObj [("document", JObj bad_children_fields)]))
           any_world "..." [("document", JObj bad_children_fields)]);
    reflexivity.
Defined.

Lemma document_not_an_object_witness :
  main sample_str sample_quote (constant_load (JObj [("document", JNull)]))
    any_world
  = ({| input_file := Some "...";
        output_file := Some "[]";
        console := ["$"]
                   ++ ["🔍 Analizando archivo de Figma...";
                       "✅ Archivo cargado";
                       "🔎 Buscando componentes Button...";
                       "✅ Encontrados 0 componentes Button";
                       nl +++ "📋 Variantes encontradas (0):";
                       nl +++ "💾 Primeros componentes guardados en: "
                       +++ ".figma/cache/button-components.json";
                       nl +++ "✅ Extracción completada!"] |}, 0).
Proof.
  apply (document_not_an_object sample_str sample_quote
           (constant_load (JObj [("document", JNull)])) any_world "..."
           [("document", JNull)] JNull);
    reflexivity.
Defined.

Lemma unhashable_name_reported_witness :
  main sample_str sample_quote
    (constant_load (JObj [("document", JObj list_name_fields)])) any_world
  = ({| input_file := Some "...";
        output_file := Some "old";
        console := ["$"]
                   ++ ["🔍 Analizando archivo de Figma...";
                       "✅ Archivo cargado";
                       "🔎 Buscando componentes Button...";
                       "✅ Encontrados 1 componentes Button";
                       "❌ Error: unhashable type: 'list'"] |}, 1).
Proof.
  apply (unhashable_name_reported sample_str sample_quote
           (constant_load (JObj [("document", JObj list_name_fields)]))
           any_world "..." [("document", JObj list_name_fields)]
           [component_info list_name_fields ""] (JArr [JStr "Button"]));
    reflexivity.
Defined.

Lemma summary_counts_witness :
  exists names,
    list_sum
      (map (fun n =>
              count_name n
                [component_info button_primary_fields "/Doc/Page";
                 component_info nested_button_fields "/Doc/Page";
                 component_info icon_fields "/Doc/Page/Button/Primary"])
         (sorted (nodup string_dec names)))
    = 3.
Proof.
  destruct (summary_counts sample_str sample_quote sample_load sample_world
              (snd (extract_button_tokens sample_str sample_quote sample_load
                      sample_world))
              [component_info button_primary_fields "/Doc/Page";
               component_info nested_button_fields "/Doc/Page";
               component_info icon_fields "/Doc/Page/Button/Primary"]
              eq_refl)
    as [names [_ [_ [_ [_ [_ Hsum]]]]]].
  exists names. exact Hsum.
Defined.
